(** * Payment instruction processor: a shallow embedding of
      [services/payment-processor/parse-instruction.js]

    The file has three parts:
    - [JS]: the fragment of the JavaScript built-ins the service uses
      (strings, [String.prototype.split], [toUpperCase], IEEE-754 numbers and
      the [Number(...)] conversion);
    - the service itself, function by function, in a small state-and-exception
      monad: the [parsed] accumulator and the account objects are mutable and
      survive a [throw] into the [catch] block, so both live in the state;
    - the properties of the service.

    Modelling conventions.
    - A JavaScript string is a Rocq [string].  The model is exact on ASCII
      text, which is what the instruction grammar, the account-id alphabet and
      the date shape are written in; [toUpperCase] leaves every other
      character as it is, and [Number] trims the ASCII white space only.  A
      property that reads a string through one of the two either has
      hypotheses that only ASCII text meets, or asks for ASCII text
      ([isAscii]).
    - A JavaScript number is a binary64 value, represented by [spec_float]
      with precision 53 and maximal exponent 1024.
    - [option] stands for a value that may be [null] or [undefined]: both are
      falsy, neither is [===] to a string, and [x || null] maps both to
      [null].
    - [new Date().toISOString().slice(0, 10)] is the argument [today]. *)

From Stdlib Require Import ZArith List String Ascii Bool Lia SpecFloat.
Import ListNotations.
Local Open Scope string_scope.
Local Open Scope bool_scope.

(* ================================================================== *)
(** * JavaScript built-ins                                             *)
(* ================================================================== *)

Module JS.

(** ** Strings *)

(** [x === y] for a possibly missing string [x] and a string [y]. *)
Definition strictEq (x : option string) (y : string) : bool :=
  match x with
  | Some s => String.eqb s y
  | None => false
  end.

(** Truthiness of a possibly missing string: the empty string, [null] and
    [undefined] are falsy. *)
Definition truthy (x : option string) : bool :=
  match x with
  | Some EmptyString => false
  | Some _ => true
  | None => false
  end.

(** [Boolean(s)] for a string. *)
Definition nonEmpty (s : string) : bool :=
  match s with
  | EmptyString => false
  | String _ _ => true
  end.

Definition toUpperChar (c : ascii) : ascii :=
  if (("a" <=? c) && (c <=? "z"))%char
  then ascii_of_nat (nat_of_ascii c - 32)
  else c.

(** [s.toUpperCase()]. *)
Fixpoint toUpperCase (s : string) : string :=
  match s with
  | EmptyString => EmptyString
  | String c r => String (toUpperChar c) (toUpperCase r)
  end.

(** [s.split(sep)] for a one-character separator: the segments between the
    separators, empty ones included; the empty string gives one empty
    segment. *)
Fixpoint split (sep : ascii) (s : string) : list string :=
  match s with
  | EmptyString => [EmptyString]
  | String c r =>
      if Ascii.eqb c sep then EmptyString :: split sep r
      else match split sep r with
           | w :: ws => String c w :: ws
           | [] => [String c EmptyString]
           end
  end.

(** [x > y] on strings: lexicographic order of the code units. *)
Definition gt (x y : string) : bool := String.ltb y x.

(** [arr.map((word, index) => f(word, index))]. *)
Fixpoint mapIndexFrom {A B} (f : A -> nat -> B) (i : nat) (l : list A) : list B :=
  match l with
  | [] => []
  | x :: r => f x i :: mapIndexFrom f (S i) r
  end.

Definition mapIndex {A B} (f : A -> nat -> B) (l : list A) : list B :=
  mapIndexFrom f 0 l.

(** ** Numbers *)

Definition number := spec_float.

Definition prec : Z := 53.
Definition emax : Z := 1024.

Definition ofZ (z : Z) : number := binary_normalize prec emax z 0 false.

Definition zero : number := S754_zero false.

Definition add (x y : number) : number := SFadd prec emax x y.
Definition sub (x y : number) : number := SFsub prec emax x y.
Definition lt (x y : number) : bool := SFltb x y.
Definition le (x y : number) : bool := SFleb x y.

(** [Number.isNaN(x)]. *)
Definition isNaN (x : number) : bool :=
  match x with
  | S754_nan => true
  | _ => false
  end.

(** [Number.isInteger(x)]: finite and without a fractional part. *)
Definition isInteger (x : number) : bool :=
  match x with
  | S754_zero _ => true
  | S754_finite _ m e =>
      if (0 <=? e)%Z then true
      else (Z.pos m mod 2 ^ (- e) =? 0)%Z
  | S754_infinity _ | S754_nan => false
  end.

(** Truthiness of a number: [0], [-0] and [NaN] are falsy. *)
Definition truthyNumber (x : number) : bool :=
  match x with
  | S754_zero _ | S754_nan => false
  | _ => true
  end.

(** *** [Number(s)]: the StringToNumber conversion

    White space is trimmed on both sides; what is left is empty (giving 0),
    a binary, octal or hexadecimal integer literal, or an optionally signed
    decimal literal ([Infinity], digits with an optional fraction and an
    optional exponent); anything else gives [NaN].  The mathematical value
    is rounded to the nearest binary64 value, ties to even. *)

Definition isWhiteSpace (c : ascii) : bool :=
  let n := nat_of_ascii c in
  ((9 <=? n) && (n <=? 13))%nat || (n =? 32)%nat.

Fixpoint trimStart (s : list ascii) : list ascii :=
  match s with
  | c :: r => if isWhiteSpace c then trimStart r else s
  | [] => []
  end.

Definition trim (s : list ascii) : list ascii :=
  rev (trimStart (rev (trimStart s))).

(** The value of a digit in a base up to 16, if it is one. *)
Definition digitValue (base : Z) (c : ascii) : option Z :=
  let n := Z.of_nat (nat_of_ascii c) in
  let v :=
    if ((48 <=? n) && (n <=? 57))%Z then Some (n - 48)%Z
    else if ((65 <=? n) && (n <=? 70))%Z then Some (n - 55)%Z
    else if ((97 <=? n) && (n <=? 102))%Z then Some (n - 87)%Z
    else None in
  match v with
  | Some d => if (d <? base)%Z then Some d else None
  | None => None
  end.

(** The longest prefix of digits, with its value (from accumulator [acc])
    and its length, and the rest. *)
Fixpoint spanDigits (base : Z) (s : list ascii) (acc : Z) (len : Z)
  : Z * Z * list ascii :=
  match s with
  | c :: r =>
      match digitValue base c with
      | Some d => spanDigits base r (acc * base + d)%Z (len + 1)%Z
      | None => (acc, len, s)
      end
  | [] => (acc, len, [])
  end.

(** A non-empty run of digits up to the end of the text. *)
Definition allDigits (base : Z) (s : list ascii) : option Z :=
  match spanDigits base s 0 0 with
  | (v, len, []) => if (0 <? len)%Z then Some v else None
  | _ => None
  end.

(** [ExponentPart] (optional) up to the end of the text. *)
Definition exponentPart (s : list ascii) : option Z :=
  match s with
  | [] => Some 0%Z
  | c :: r =>
      if Ascii.eqb c "e" || Ascii.eqb c "E" then
        match r with
        | "+"%char :: d => allDigits 10 d
        | "-"%char :: d => option_map Z.opp (allDigits 10 d)
        | _ => allDigits 10 r
        end
      else None
  end.

(** [sign * m * 10 ^ e10], rounded. *)
Definition roundDecimal (neg : bool) (m : Z) (e10 : Z) : number :=
  match m with
  | Zpos p =>
      if (0 <=? e10)%Z
      then binary_normalize prec emax (cond_Zopp neg (m * 10 ^ e10)) 0 neg
      else SFdiv prec emax (S754_finite neg p 0)
                           (S754_finite false (Z.to_pos (10 ^ (- e10))) 0)
  | _ => S754_zero neg
  end.

(** [StrUnsignedDecimalLiteral]. *)
Definition unsignedDecimal (neg : bool) (s : list ascii) : number :=
  if list_eq_dec ascii_dec s (list_ascii_of_string "Infinity")
  then S754_infinity neg
  else
    let '(ip, ilen, r) := spanDigits 10 s 0 0 in
    let '(m, flen, r') :=
      match r with
      | "."%char :: f =>
          let '(m, flen, r') := spanDigits 10 f ip 0 in (m, Some flen, r')
      | _ => (ip, None, r)
      end in
    let digits_ok :=
      match flen with
      | Some fl => (0 <? ilen + fl)%Z
      | None => (0 <? ilen)%Z
      end in
    match exponentPart r' with
    | Some ex =>
        if digits_ok
        then roundDecimal neg m (ex - match flen with Some fl => fl | None => 0 end)
        else S754_nan
    | None => S754_nan
    end.

Definition nonDecimal (base : Z) (s : list ascii) : number :=
  match allDigits base s with
  | Some v => ofZ v
  | None => S754_nan
  end.

Definition Number (str : string) : number :=
  match trim (list_ascii_of_string str) with
  | [] => zero
  | "0"%char :: "x"%char :: r | "0"%char :: "X"%char :: r => nonDecimal 16 r
  | "0"%char :: "o"%char :: r | "0"%char :: "O"%char :: r => nonDecimal 8 r
  | "0"%char :: "b"%char :: r | "0"%char :: "B"%char :: r => nonDecimal 2 r
  | "+"%char :: r => unsignedDecimal false r
  | "-"%char :: r => unsignedDecimal true r
  | s => unsignedDecimal false s
  end.

End JS.

(* ================================================================== *)
(** * Data model                                                       *)
(* ================================================================== *)

(** An element of [data.accounts]. *)
Module Account.
Record t := mk { id : string; balance : JS.number; currency : string }.
End Account.

(** An element of the [accounts] list of a response. *)
Module Snapshot.
Record t := mk {
  id : string;
  balance : JS.number;
  balance_before : JS.number;
  currency : string
}.
End Snapshot.

(** The validated payload: [{ accounts, instruction }]. *)
Module Data.
Record t := mk { accounts : list Account.t; instruction : string }.
End Data.

(** The [parsed] accumulator of [parseInstruction]. *)
Module Parsed.
Record t := mk {
  type : option string;
  amount : option JS.number;
  currency : option string;
  debit_account : option string;
  credit_account : option string;
  execute_by : option string;
  accounts : list Snapshot.t
}.

Definition initial : t := mk None None None None None None [].

Definition set_type v p :=
  mk v (amount p) (currency p) (debit_account p) (credit_account p)
     (execute_by p) (accounts p).
Definition set_amount v p :=
  mk (type p) v (currency p) (debit_account p) (credit_account p)
     (execute_by p) (accounts p).
Definition set_currency v p :=
  mk (type p) (amount p) v (debit_account p) (credit_account p)
     (execute_by p) (accounts p).
Definition set_debit_account v p :=
  mk (type p) (amount p) (currency p) v (credit_account p)
     (execute_by p) (accounts p).
Definition set_credit_account v p :=
  mk (type p) (amount p) (currency p) (debit_account p) v
     (execute_by p) (accounts p).
Definition set_execute_by v p :=
  mk (type p) (amount p) (currency p) (debit_account p) (credit_account p)
     v (accounts p).
Definition set_accounts v p :=
  mk (type p) (amount p) (currency p) (debit_account p) (credit_account p)
     (execute_by p) v.
End Parsed.

(** The value [parseInstruction] returns.  [status_code] is [None] when the
    property is [undefined]. *)
Module Response.
Record t := mk {
  type : option string;
  amount : option JS.number;
  currency : option string;
  debit_account : option string;
  credit_account : option string;
  execute_by : option string;
  status : string;
  status_reason : string;
  status_code : option string;
  accounts : list Snapshot.t
}.
End Response.

(** [@app/messages/payment] is not part of the sources: the thirteen message
    strings are a parameter of the service. *)
Module Messages.
Record t := mk {
  SY01 : string; SY02 : string; SY03 : string;
  AM01 : string;
  CU01 : string; CU02 : string;
  AC01 : string; AC02 : string; AC03 : string; AC04 : string;
  DT01 : string;
  AP00 : string; AP02 : string
}.
End Messages.

(** The messages as the README's status-code table gives them. *)
Definition readmeMessages : Messages.t :=
  Messages.mk
    "Missing keyword" "Invalid keyword order" "Malformed instruction"
    "Invalid amount"
    "Account currency mismatch" "Unsupported currency"
    "Insufficient funds" "Debit and credit accounts cannot be the same"
    "Account not found" "Invalid account ID format"
    "Invalid date format (must be YYYY-MM-DD)"
    "Transaction executed successfully"
    "Transaction scheduled for future execution".

(* ================================================================== *)
(** * Exceptions and mutable state                                     *)
(* ================================================================== *)

(** Modelled from the spec: the error [throwAppError] of [@app-core/errors]
    raises is not among the sources; by the spec a failure is "a single error
    kind carrying a stable code and a human-readable reason", and the [catch]
    block reads the two back as [err.message] and [err.errorCode].  Besides
    it, a [TypeError] is what the engine raises when a property of
    [undefined] is read; it has a message and no [errorCode]. *)
Inductive JsError :=
| AppError (message errorCode : string)
| TypeError (message : string).

Definition message (err : JsError) : string :=
  match err with
  | AppError m _ => m
  | TypeError m => m
  end.

Definition errorCode (err : JsError) : option string :=
  match err with
  | AppError _ c => Some c
  | TypeError _ => None
  end.

(** The text of the engine's [TypeError] (V8's wording); nothing below
    depends on it. *)
Definition undefinedRead (prop : string) : JsError :=
  TypeError ("Cannot read properties of undefined (reading '" ++ prop ++ "')").

Inductive Completion (A : Type) :=
| Normal (a : A)
| Throw (err : JsError).
Arguments Normal {A} a.
Arguments Throw {A} err.

(** The mutable objects a call works on: the [parsed] accumulator and the
    account objects of [data.accounts].  A reference to an account object is
    its position in that array. *)
Record State := mkState {
  parsed : Parsed.t;
  data_accounts : list Account.t
}.

Definition Exec (A : Type) : Type := State -> State * Completion A.

Definition ret {A} (a : A) : Exec A := fun st => (st, Normal a).

Definition bind {A B} (m : Exec A) (k : A -> Exec B) : Exec B :=
  fun st =>
    match m st with
    | (st', Normal a) => k a st'
    | (st', Throw err) => (st', Throw err)
    end.

Notation "x <- m ;; k" := (bind m (fun x => k))
  (at level 61, m at next level, right associativity).
Notation "m ;; k" := (bind m (fun _ => k))
  (at level 61, right associativity).

Definition throw {A} (err : JsError) : Exec A := fun st => (st, Throw err).

(** Modelled from the spec: [throwAppError(message, code)] of
    [@app-core/errors], not among the sources, throws the error that carries
    the two. *)
Definition throwAppError {A} (msg code : string) : Exec A :=
  throw (AppError msg code).

(** [if (b) { m }]. *)
Definition when (b : bool) (m : Exec unit) : Exec unit :=
  if b then m else ret tt.

Definition getParsed : Exec Parsed.t := fun st => (st, Normal (parsed st)).

Definition setParsed (f : Parsed.t -> Parsed.t) : Exec unit :=
  fun st => (mkState (f (parsed st)) (data_accounts st), Normal tt).

(** [s.toUpperCase()] where [s] may be [undefined]. *)
Definition toUpperCaseOf (s : option string) : Exec string :=
  match s with
  | Some w => ret (JS.toUpperCase w)
  | None => throw (undefinedRead "toUpperCase")
  end.

(** [accounts.find((a) => a.id === id)]: the first account object with that
    id, as a reference. *)
Fixpoint findFrom (id : option string) (l : list Account.t) (i : nat) : option nat :=
  match l with
  | [] => None
  | a :: r => if JS.strictEq id (Account.id a) then Some i else findFrom id r (S i)
  end.

Definition find (id : option string) : Exec (option nat) :=
  fun st => (st, Normal (findFrom id (data_accounts st) 0)).

(** Reading the object behind a reference ([acc.id], [acc.balance],
    [acc.currency]); behind no object, the read is that of a property of
    [undefined]. *)
Definition read (ref : option nat) : Exec Account.t :=
  fun st =>
    match ref with
    | Some i =>
        match nth_error (data_accounts st) i with
        | Some a => (st, Normal a)
        | None => (st, Throw (undefinedRead "balance"))
        end
    | None => (st, Throw (undefinedRead "balance"))
    end.

Fixpoint updateAt (i : nat) (f : Account.t -> Account.t) (l : list Account.t)
  : list Account.t :=
  match l, i with
  | [], _ => []
  | a :: r, O => f a :: r
  | a :: r, S i' => a :: updateAt i' f r
  end.

(** [acc.balance = f(acc.balance)] on the object behind a reference. *)
Definition updateBalance (ref : option nat) (f : JS.number -> JS.number) : Exec unit :=
  fun st =>
    match ref with
    | Some i =>
        (mkState (parsed st)
           (updateAt i (fun a => Account.mk (Account.id a) (f (Account.balance a))
                                            (Account.currency a))
                     (data_accounts st)),
         Normal tt)
    | None => (st, Throw (undefinedRead "balance"))
    end.

(* ================================================================== *)
(** * The service                                                      *)
(* ================================================================== *)

(** [data.split(' ').filter(Boolean)]. *)
Definition splitData (data : string) : list string :=
  filter JS.nonEmpty (JS.split " " data).

Definition isPositiveInteger (value : JS.number) : bool :=
  JS.isInteger value && JS.lt JS.zero value.

Definition accountIdChar (c : ascii) : bool :=
  ((("A" <=? c) && (c <=? "Z")) ||
   (("a" <=? c) && (c <=? "z")) ||
   (("0" <=? c) && (c <=? "9")) ||
   (c =? "-") || (c =? ".") || (c =? "@"))%char.

Fixpoint accountIdChars (id : string) : bool :=
  match id with
  | EmptyString => true
  | String c r => if negb (accountIdChar c) then false else accountIdChars r
  end.

(** [isValidAccountId(id)]; reading [id.length] throws when [id] is
    [undefined]. *)
Definition isValidAccountId (id : option string) : Exec bool :=
  match id with
  | Some s => ret (accountIdChars s)
  | None => throw (undefinedRead "length")
  end.

Definition expectedDebit : list (option string) :=
  [Some "DEBIT"; None; None; Some "FROM"; Some "ACCOUNT"; None;
   Some "FOR"; Some "CREDIT"; Some "TO"; Some "ACCOUNT"].

Definition expectedCredit : list (option string) :=
  [Some "CREDIT"; None; None; Some "TO"; Some "ACCOUNT"; None;
   Some "FOR"; Some "DEBIT"; Some "FROM"; Some "ACCOUNT"].

(** The loop [for (i = 0; i < expected.length; i++)] of [isOutOfOrder], from
    position [i] on: [true] when it returns [true]. *)
Fixpoint mismatchFrom (expected : list (option string)) (keywords : list string)
  (i : nat) : bool :=
  match expected with
  | [] => false
  | e :: rest =>
      match e with
      | Some w =>
          if negb (JS.strictEq (option_map JS.toUpperCase (nth_error keywords i)) w)
          then true
          else mismatchFrom rest keywords (S i)
      | None => mismatchFrom rest keywords (S i)
      end
  end.

Definition isOutOfOrder (keywords : list string) (type : option string) : bool :=
  if JS.strictEq type "DEBIT" && mismatchFrom expectedDebit keywords 0 then true
  else if JS.strictEq type "CREDIT" && mismatchFrom expectedCredit keywords 0 then true
  else if JS.truthy (nth_error keywords 11) &&
          negb (JS.strictEq (option_map JS.toUpperCase (nth_error keywords 11)) "ON")
  then true
  else false.

(** [x || null]. *)
Definition orNull (x : option string) : option string :=
  if JS.truthy x then x else None.

Definition orNullNumber (x : option JS.number) : option JS.number :=
  match x with
  | Some n => if JS.truthyNumber n then Some n else None
  | None => None
  end.

Definition buildErrorResponse (err : JsError) (parsed : Parsed.t) : Response.t :=
  Response.mk
    (orNull (Parsed.type parsed))
    (orNullNumber (Parsed.amount parsed))
    (orNull (Parsed.currency parsed))
    (orNull (Parsed.debit_account parsed))
    (orNull (Parsed.credit_account parsed))
    (orNull (Parsed.execute_by parsed))
    "failed"
    (message err)
    (errorCode err)
    (Parsed.accounts parsed).

Definition supported : list string := ["NGN"; "USD"; "GBP"; "GHS"].

(** [supported.includes(currency)]. *)
Definition includes (l : list string) (s : string) : bool :=
  existsb (String.eqb s) l.

Section Service.

Variable PaymentMessages : Messages.t.

(** The normalisation of the tokens: all upper-cased but the two account
    ids. *)
Definition normalize (raw : list string) : list string :=
  JS.mapIndex
    (fun word index =>
       if (index =? 5)%nat || (index =? 10)%nat then word else JS.toUpperCase word)
    raw.

(** The body of the [try] block. *)
Definition tryBody (today : string) (data : Data.t) : Exec Response.t :=
  let raw := splitData (Data.instruction data) in
  let keywords := normalize raw in
  when (List.length keywords <? 8)%nat
    (throwAppError (Messages.SY01 PaymentMessages) "SY01") ;;
  when (negb (JS.strictEq (nth_error keywords 0) "DEBIT") &&
        negb (JS.strictEq (nth_error keywords 0) "CREDIT"))
    (throwAppError (Messages.SY03 PaymentMessages) "SY03") ;;
  when (isOutOfOrder keywords (nth_error keywords 0))
    (throwAppError (Messages.SY02 PaymentMessages) "SY02") ;;
  (* Assign debit / credit accounts based on type *)
  let type := nth_error keywords 0 in
  let debitAccId := nth_error keywords 5 in
  let creditAccId := nth_error keywords 10 in
  (if JS.strictEq type "DEBIT"
   then setParsed (Parsed.set_debit_account debitAccId) ;;
        setParsed (Parsed.set_credit_account creditAccId)
   else setParsed (Parsed.set_debit_account creditAccId) ;;
        setParsed (Parsed.set_credit_account debitAccId)) ;;
  setParsed (Parsed.set_type type) ;;
  (* Amount *)
  let amount :=
    match nth_error keywords 1 with
    | Some w => JS.Number w
    | None => S754_nan
    end in
  setParsed (Parsed.set_amount (Some amount)) ;;
  when (JS.isNaN amount || JS.le amount JS.zero || negb (isPositiveInteger amount))
    (throwAppError (Messages.AM01 PaymentMessages) "AM01") ;;
  (* Currency *)
  currency <- toUpperCaseOf (nth_error keywords 2) ;;
  when (negb (includes supported currency))
    (throwAppError (Messages.CU02 PaymentMessages) "CU02") ;;
  setParsed (Parsed.set_currency (Some currency)) ;;
  (* Account ID format *)
  valid5 <- isValidAccountId (nth_error keywords 5) ;;
  invalid <- (if negb valid5 then ret true
              else valid10 <- isValidAccountId (nth_error keywords 10) ;;
                   ret (negb valid10)) ;;
  when invalid
    (throwAppError (Messages.AC04 PaymentMessages) "AC04") ;;
  (* Date parsing (if ON keyword exists) *)
  when (JS.truthy (nth_error keywords 11) &&
        JS.strictEq (option_map JS.toUpperCase (nth_error keywords 11)) "ON")
    (let dateString := nth_error keywords 12 in
     when (negb (JS.truthy dateString))
       (throwAppError (Messages.DT01 PaymentMessages) "DT01") ;;
     when (match dateString with
           | Some d =>
               negb (String.length d =? 10)%nat ||
               negb (JS.strictEq (option_map (fun c => String c "") (String.get 4 d)) "-") ||
               negb (JS.strictEq (option_map (fun c => String c "") (String.get 7 d)) "-")
           | None => true
           end)
       (throwAppError (Messages.DT01 PaymentMessages) "DT01") ;;
     setParsed (Parsed.set_execute_by dateString)) ;;
  (* Accounts *)
  p <- getParsed ;;
  debitAcc <- find (Parsed.debit_account p) ;;
  creditAcc <- find (Parsed.credit_account p) ;;
  when (match debitAcc, creditAcc with Some _, Some _ => false | _, _ => true end)
    (throwAppError (Messages.AC03 PaymentMessages) "AC03") ;;
  debit <- read debitAcc ;;
  credit <- read creditAcc ;;
  when (negb (String.eqb (Account.currency debit) (Account.currency credit)))
    (throwAppError (Messages.CU01 PaymentMessages) "CU01") ;;
  when (negb (JS.strictEq (Parsed.currency p)
                (JS.toUpperCase (Account.currency debit))))
    (throwAppError (Messages.CU01 PaymentMessages) "CU01") ;;
  when (match Parsed.credit_account p with
        | Some c => JS.strictEq (Parsed.debit_account p) c
        | None => match Parsed.debit_account p with None => true | Some _ => false end
        end)
    (throwAppError (Messages.AC02 PaymentMessages) "AC02") ;;
  when (JS.lt (Account.balance debit) amount)
    (throwAppError (Messages.AC01 PaymentMessages) "AC01") ;;
  let debitBefore := Account.balance debit in
  let creditBefore := Account.balance credit in
  let pending :=
    JS.truthy (Parsed.execute_by p) &&
    match Parsed.execute_by p with
    | Some d => JS.gt d today
    | None => false
    end in
  let status := if pending then "pending" else "successful" in
  let statusCode := if pending then "AP02" else "AP00" in
  when (String.eqb status "successful")
    (updateBalance debitAcc (fun b => JS.sub b amount) ;;
     updateBalance creditAcc (fun b => JS.add b amount)) ;;
  debit' <- read debitAcc ;;
  credit' <- read creditAcc ;;
  setParsed (Parsed.set_accounts
    [ Snapshot.mk (Account.id debit') (Account.balance debit') debitBefore
        (Account.currency debit');
      Snapshot.mk (Account.id credit') (Account.balance credit') creditBefore
        (Account.currency credit') ]) ;;
  p' <- getParsed ;;
  ret (Response.mk
         (Parsed.type p') (Parsed.amount p') (Parsed.currency p')
         (Parsed.debit_account p') (Parsed.credit_account p')
         (Parsed.execute_by p')
         status
         (if String.eqb status "successful"
          then Messages.AP00 PaymentMessages
          else Messages.AP02 PaymentMessages)
         (Some statusCode)
         (Parsed.accounts p')).

(** The snapshot the [catch] block takes of an account it could resolve. *)
Definition failureSnapshot (a : Account.t) : Snapshot.t :=
  Snapshot.mk (Account.id a) (Account.balance a) (Account.balance a)
    (Account.currency a).

(** The [catch] block. *)
Definition catchBlock (error : JsError) : Exec Response.t :=
  p <- getParsed ;;
  when (JS.truthy (Parsed.debit_account p) && JS.truthy (Parsed.credit_account p))
    (debitAcc <- find (Parsed.debit_account p) ;;
     creditAcc <- find (Parsed.credit_account p) ;;
     debit <- (match debitAcc with
               | Some _ => a <- read debitAcc ;; ret [failureSnapshot a]
               | None => ret []
               end) ;;
     credit <- (match creditAcc with
                | Some _ => a <- read creditAcc ;; ret [failureSnapshot a]
                | None => ret []
                end) ;;
     setParsed (Parsed.set_accounts (debit ++ credit))) ;;
  p' <- getParsed ;;
  ret (buildErrorResponse error p').

(** [try { ... } catch (error) { ... }]. *)
Definition tryCatch {A} (body : Exec A) (handler : JsError -> Exec A) : Exec A :=
  fun st =>
    match body st with
    | (st', Normal a) => (st', Normal a)
    | (st', Throw err) => handler err st'
    end.

(** [parseInstruction(serviceData)] on a payload the schema accepts, which
    [validator.validate] hands over as it is: how the call completes, and the
    [parsed] accumulator and the account objects as the call leaves them.
    The logger call of the [catch] block has no part in the result. *)
Definition parseInstruction (today : string) (data : Data.t)
  : State * Completion Response.t :=
  tryCatch (tryBody today data) catchBlock
    (mkState Parsed.initial (Data.accounts data)).

End Service.


(* ================================================================== *)
(** * The endpoint                                                     *)
(* ================================================================== *)

(** What the handler of [endpoints/payment-instructions/process.js]
    returns. *)
Module HandlerResult.
Record t (HttpStatus : Type) := mk {
  status : HttpStatus;
  message : string;
  data : Response.t
}.
Arguments mk {HttpStatus} status message data.
Arguments status {HttpStatus} t.
Arguments message {HttpStatus} t.
Arguments data {HttpStatus} t.
End HandlerResult.

Section Endpoint.

(** [helpers.http_statuses.HTTP_200_OK] comes with the server and is not
    among the sources: a parameter. *)
Variable HttpStatus : Type.
Variable HTTP_200_OK : HttpStatus.

(** [handler(rc, helpers)] on a body the schema accepts.  The payload is a
    shallow copy of the body, so the service works on the account objects of
    the body itself; an exception of the service would leave the handler as
    it is. *)
Definition handler (PaymentMessages : Messages.t) (today : string) (body : Data.t)
  : State * Completion (HandlerResult.t HttpStatus) :=
  let payload := Data.mk (Data.accounts body) (Data.instruction body) in
  match parseInstruction PaymentMessages today payload with
  | (st, Normal response) =>
      (st, Normal (HandlerResult.mk HTTP_200_OK
                     "Instruction processed successfully" response))
  | (st, Throw err) => (st, Throw err)
  end.

End Endpoint.

(** The status codes of the README's table: the eleven failures, and the two
    the [try] block can end with. *)
Definition failureCodes : list string :=
  ["SY01"; "SY02"; "SY03"; "AM01"; "CU01"; "CU02";
   "AC01"; "AC02"; "AC03"; "AC04"; "DT01"].

Definition documentedCodes : list string := failureCodes ++ ["AP00"; "AP02"].

(** The state a call starts in. *)
Definition initialState (data : Data.t) : State :=
  mkState Parsed.initial (Data.accounts data).

(** The two balance updates of a transfer of [amount] from the account
    object at [i] to the one at [j]. *)
Definition debited (amount : JS.number) (a : Account.t) : Account.t :=
  Account.mk (Account.id a) (JS.sub (Account.balance a) amount) (Account.currency a).

Definition credited (amount : JS.number) (a : Account.t) : Account.t :=
  Account.mk (Account.id a) (JS.add (Account.balance a) amount) (Account.currency a).

Definition transfer (i j : nat) (amount : JS.number) (l : list Account.t)
  : list Account.t :=
  updateAt j (credited amount) (updateAt i (debited amount) l).

(** ** The vocabulary of the properties *)

(** A DEBIT instruction by its tokens: the keyword skeleton, compared without
    regard to case, around the amount, the currency and the two account
    ids. *)
Definition debitSkeleton (tokens : list string)
  (amountTok currencyTok debitId creditId : string) : Prop :=
  exists t0 t3 t4 t6 t7 t8 t9,
    tokens = [t0; amountTok; currencyTok; t3; t4; debitId; t6; t7; t8; t9; creditId] /\
    JS.toUpperCase t0 = "DEBIT" /\ JS.toUpperCase t3 = "FROM" /\
    JS.toUpperCase t4 = "ACCOUNT" /\ JS.toUpperCase t6 = "FOR" /\
    JS.toUpperCase t7 = "CREDIT" /\ JS.toUpperCase t8 = "TO" /\
    JS.toUpperCase t9 = "ACCOUNT".

(** Today's date in [YYYY-MM-DD] form: ten characters, digits but for the
    hyphens at positions 4 and 7. *)
Definition isDigit (c : ascii) : bool := (("0" <=? c) && (c <=? "9"))%char.

Definition dateChar (i : nat) (c : ascii) : bool :=
  if (i =? 4)%nat || (i =? 7)%nat then (c =? "-")%char else isDigit c.

Fixpoint dateCharsFrom (i : nat) (s : string) : bool :=
  match s with
  | EmptyString => true
  | String c r => dateChar i c && dateCharsFrom (S i) r
  end.

Definition isoDate (s : string) : bool :=
  (String.length s =? 10)%nat && dateCharsFrom 0 s.

(** A response with another [execute_by]. *)
Definition withExecuteBy (d : option string) (r : Response.t) : Response.t :=
  Response.mk (Response.type r) (Response.amount r) (Response.currency r)
    (Response.debit_account r) (Response.credit_account r) d
    (Response.status r) (Response.status_reason r) (Response.status_code r)
    (Response.accounts r).

(** The Outcome of the spec: a status among the three, and a status code;
    the reason and the account list are there by the type of a response. *)
Definition wellFormedOutcome (r : Response.t) : Prop :=
  (Response.status r = "successful" \/ Response.status r = "pending" \/
   Response.status r = "failed") /\
  exists code, Response.status_code r = Some code.

(** The number the service parses the amount from: [Number(keywords[1])]. *)
Definition amountOf (instruction : string) : JS.number :=
  match nth_error (normalize (splitData instruction)) 1 with
  | Some w => JS.Number w
  | None => S754_nan
  end.

(** The tokenizer as the spec words it, "splits on whitespace, drops empty
    substrings", to be compared with [splitData]. *)
Fixpoint splitWhen (sep : ascii -> bool) (s : string) : list string :=
  match s with
  | EmptyString => [EmptyString]
  | String c r =>
      if sep c then EmptyString :: splitWhen sep r
      else match splitWhen sep r with
           | w :: ws => String c w :: ws
           | [] => [String c EmptyString]
           end
  end.

Definition whitespaceWords (s : string) : list string :=
  filter JS.nonEmpty (splitWhen JS.isWhiteSpace s).

(** A word without a space. *)
Definition spaceless (w : string) : bool :=
  forallb (fun c => negb (Ascii.eqb c " ")) (list_ascii_of_string w).

(** The tokenizer as the service has it in words: split on the space
    character (U+0020) only, drop the empty substrings.  To be compared with
    [splitData]. *)
Definition isSpace (c : ascii) : bool := Ascii.eqb c " ".

Definition spaceWords (s : string) : list string :=
  filter JS.nonEmpty (splitWhen isSpace s).

(** ASCII text: every character is one of U+0000 to U+007F.  On such text
    [JS.toUpperCase], [JS.Number], the length and the order of strings are
    those of ECMAScript; beyond it they would need the Unicode case
    mappings, the Unicode white space and the UTF-16 length. *)
Definition isAsciiChar (c : ascii) : bool := (N_of_ascii c <? 128)%N.

Definition isAscii (s : string) : bool :=
  forallb isAsciiChar (list_ascii_of_string s).

(** ** The examples of the README and of the spec *)

Definition exampleAccounts : list Account.t :=
  [Account.mk "ACC-001" (JS.ofZ 5000) "NGN";
   Account.mk "ACC-002" (JS.ofZ 1500) "NGN"].

Definition exampleInstruction : string :=
  "DEBIT 2000 NGN FROM ACCOUNT ACC-001 FOR CREDIT TO ACCOUNT ACC-002".

(** The example instruction scheduled for a later day, and one asking for
    more than the debit account holds. *)
Definition scheduledInstruction : string :=
  "DEBIT 2000 NGN FROM ACCOUNT ACC-001 FOR CREDIT TO ACCOUNT ACC-002 ON 2026-12-25".

Definition overdrawnInstruction : string :=
  "DEBIT 9000 NGN FROM ACCOUNT ACC-001 FOR CREDIT TO ACCOUNT ACC-002 ON 2026-12-25".

(** The example instruction with a tab for its first space, and with more
    spaces. *)
Definition tabbedInstruction : string :=
  "DEBIT" ++ String (ascii_of_nat 9)
    "2000 NGN FROM ACCOUNT ACC-001 FOR CREDIT TO ACCOUNT ACC-002".

Definition spacedInstruction : string :=
  "  DEBIT 2000   NGN FROM ACCOUNT ACC-001 FOR CREDIT TO  ACCOUNT ACC-002 ".

(** Instructions that stop after the tenth token, or after [ON]. *)
Definition tenTokenDebit : string :=
  "DEBIT 2000 NGN FROM ACCOUNT ACC-001 FOR CREDIT TO ACCOUNT".

Definition tenTokenCredit : string :=
  "CREDIT 500 USD TO ACCOUNT WALLET02 FOR DEBIT FROM ACCOUNT".

Definition undatedOn : string :=
  "DEBIT 2000 NGN FROM ACCOUNT ACC-001 FOR CREDIT TO ACCOUNT ACC-002 ON".

(** The README's example of an error: amount and currency swapped. *)
Definition swappedInstruction : string :=
  "DEBIT NGN 2000 FROM ACCOUNT ACC-01 FOR CREDIT TO ACCOUNT ACC-02".

Definition unsupportedCurrencyInstruction : string :=
  "DEBIT 2000 XYZ FROM ACCOUNT ACC-001 FOR CREDIT TO ACCOUNT ACC-002".

Definition zeroAmountInstruction : string :=
  "DEBIT 0 NGN FROM ACCOUNT ACC-001 FOR CREDIT TO ACCOUNT ACC-002".

(** ** The vocabulary of the further properties *)

(** ** The tokenizer, continued *)

(** The characters of a string that are not spaces, in order. *)
Fixpoint withoutSpaces (s : string) : string :=
  match s with
  | EmptyString => EmptyString
  | String c r =>
      if Ascii.eqb c " " then withoutSpaces r else String c (withoutSpaces r)
  end.

(** A word: not empty, no space in it. *)
Definition wordOk (w : string) : Prop :=
  JS.nonEmpty w = true /\ spaceless w = true.

(** ** The keyword skeleton *)

(** Position [i] holds keyword [w], in any case. *)
Definition keywordAt (keywords : list string) (i : nat) (w : string) : Prop :=
  exists t, nth_error keywords i = Some t /\ JS.toUpperCase t = w.

(** Position 11 is missing, or empty, or [ON] in any case. *)
Definition trailingClauseOk (keywords : list string) : Prop :=
  match nth_error keywords 11 with
  | None => True
  | Some t => t = "" \/ JS.toUpperCase t = "ON"
  end.

(** A string of decimal digits, and the number it writes. *)
Definition digitString (s : string) : bool :=
  JS.nonEmpty s && forallb isDigit (list_ascii_of_string s).

Definition decimalValue (s : string) : Z :=
  fold_left (fun acc c => (acc * 10 + (Z.of_nat (nat_of_ascii c) - 48))%Z)
    (list_ascii_of_string s) 0%Z.

(** The snapshots the [catch] block can take for an id: that of the first
    account object with the id, if there is one. *)
Definition resolved (accounts : list Account.t) (id : string) : list Snapshot.t :=
  match findFrom (Some id) accounts 0 with
  | Some i =>
      match nth_error accounts i with
      | Some a => [failureSnapshot a]
      | None => []
      end
  | None => []
  end.

(** The part of a DEBIT instruction the structural, amount and currency
    checks accept. *)
Definition acceptedDebit (instruction amountTok currencyTok debitId creditId : string)
  : Prop :=
  debitSkeleton (splitData instruction) amountTok currencyTok debitId creditId /\
  isPositiveInteger (JS.Number (JS.toUpperCase amountTok)) = true /\
  includes supported (JS.toUpperCase currencyTok) = true.

(** A CREDIT instruction by its tokens: the credit account comes first. *)
Definition creditSkeleton (tokens : list string)
  (amountTok currencyTok debitId creditId : string) : Prop :=
  exists t0 t3 t4 t6 t7 t8 t9,
    tokens = [t0; amountTok; currencyTok; t3; t4; creditId; t6; t7; t8; t9; debitId] /\
    JS.toUpperCase t0 = "CREDIT" /\ JS.toUpperCase t3 = "TO" /\
    JS.toUpperCase t4 = "ACCOUNT" /\ JS.toUpperCase t6 = "FOR" /\
    JS.toUpperCase t7 = "DEBIT" /\ JS.toUpperCase t8 = "FROM" /\
    JS.toUpperCase t9 = "ACCOUNT".

(** A response with another [type]. *)
Definition withType (t : option string) (r : Response.t) : Response.t :=
  Response.mk t (Response.amount r) (Response.currency r)
    (Response.debit_account r) (Response.credit_account r)
    (Response.execute_by r)
    (Response.status r) (Response.status_reason r) (Response.status_code r)
    (Response.accounts r).

(** A snapshot of an account object of the payload as it came in. *)
Definition untouchedSnapshot (accounts : list Account.t) (s : Snapshot.t) : Prop :=
  exists a, In a accounts /\ s = failureSnapshot a.

(** The keywords of an instruction, and whether they pass the three
    structural checks. *)
Definition keywordsOf (instruction : string) : list string :=
  normalize (splitData instruction).

(** The first keyword is DEBIT or CREDIT. *)
Definition isType (keywords : list string) : bool :=
  JS.strictEq (nth_error keywords 0) "DEBIT" ||
  JS.strictEq (nth_error keywords 0) "CREDIT".

Definition structureOk (keywords : list string) : bool :=
  negb (List.length keywords <? 8)%nat && isType keywords &&
  negb (isOutOfOrder keywords (nth_error keywords 0)).

(** The currency the service reads: [keywords[2].toUpperCase()]. *)
Definition currencyOf (instruction : string) : option string :=
  option_map JS.toUpperCase (nth_error (keywordsOf instruction) 2).

(** The code a run of the [try] block ends with. *)
Definition codeOf (c : Completion Response.t) : option string :=
  match c with
  | Normal r => Response.status_code r
  | Throw e => errorCode e
  end.

(** What each of the first five codes stands for. *)
Definition orderedChecks (instruction : string) (code : option string) : Prop :=
  (code = Some "SY01" <->
   (List.length (keywordsOf instruction) <? 8)%nat = true) /\
  (code = Some "SY03" <->
   (List.length (keywordsOf instruction) <? 8)%nat = false /\
   isType (keywordsOf instruction) = false) /\
  (code = Some "SY02" <->
   (List.length (keywordsOf instruction) <? 8)%nat = false /\
   isType (keywordsOf instruction) = true /\
   isOutOfOrder (keywordsOf instruction)
     (nth_error (keywordsOf instruction) 0) = true) /\
  (code = Some "AM01" <->
   structureOk (keywordsOf instruction) = true /\
   isPositiveInteger (amountOf instruction) = false) /\
  (code = Some "CU02" <->
   structureOk (keywordsOf instruction) = true /\
   isPositiveInteger (amountOf instruction) = true /\
   exists currency,
     currencyOf instruction = Some currency /\
     includes supported currency = false).

(** The shape the service asks of a date: ten characters, hyphens at
    positions 4 and 7. *)
Definition hyphenAt (i : nat) (d : string) : bool :=
  JS.strictEq (option_map (fun c => String c "") (String.get i d)) "-".

Definition dateShape (d : string) : bool :=
  (String.length d =? 10)%nat && hyphenAt 4 d && hyphenAt 7 d.

(** Further example instructions: the two forms of a transfer, more than
    the debit account holds, an account to itself, an unknown account,
    another currency, an underscore in an id, a date out of shape, and the
    scheduled example in lower case with words behind the date. *)
Definition exampleCredit : string :=
  "CREDIT 2000 NGN TO ACCOUNT ACC-002 FOR DEBIT FROM ACCOUNT ACC-001".



Definition unknownAccount : string :=
  "DEBIT 100 NGN FROM ACCOUNT ACC-001 FOR CREDIT TO ACCOUNT ACC-009".

Definition dollarDebit : string :=
  "DEBIT 100 USD FROM ACCOUNT ACC-001 FOR CREDIT TO ACCOUNT ACC-002".

Definition underscoreId : string :=
  "DEBIT 100 NGN FROM ACCOUNT ACC_001 FOR CREDIT TO ACCOUNT ACC-002".

Definition misshapenDate : string :=
  "DEBIT 2000 NGN FROM ACCOUNT ACC-001 FOR CREDIT TO ACCOUNT ACC-002 ON 25/12/2026".

Definition verboseInstruction : string :=
  "debit 2000 ngn from account ACC-001 for credit to account ACC-002 on 2026-12-25 at noon".

(* ================================================================== *)
(** * Facts about the built-ins and the store                          *)
(* ================================================================== *)

Lemma toUpperChar_idempotent (c : ascii) :
  JS.toUpperChar (JS.toUpperChar c) = JS.toUpperChar c.
Proof.
  destruct c as [[] [] [] [] [] [] [] []]; reflexivity.
Qed.

Lemma toUpperCase_idempotent (s : string) :
  JS.toUpperCase (JS.toUpperCase s) = JS.toUpperCase s.
Proof.
  induction s as [|c r IH]; simpl.
  - reflexivity.
  - now rewrite toUpperChar_idempotent, IH.
Qed.

Lemma toUpperCase_length (s : string) :
  String.length (JS.toUpperCase s) = String.length s.
Proof.
  induction s as [|c r IH]; simpl; congruence.
Qed.

Lemma mapIndexFrom_length {A B} (f : A -> nat -> B) (l : list A) (i : nat) :
  List.length (JS.mapIndexFrom f i l) = List.length l.
Proof.
  revert i; induction l as [|x r IH]; intros i; simpl; [reflexivity|].
  now rewrite IH.
Qed.

Lemma normalize_length (raw : list string) :
  List.length (normalize raw) = List.length raw.
Proof. apply mapIndexFrom_length. Qed.

(** ** Comparison of numbers *)

Lemma SFcompare_antisym (x y : spec_float) :
  SFcompare y x = option_map CompOpp (SFcompare x y).
Proof.
  destruct x as [[]|[]| |[] mx ex], y as [[]|[]| |[] my ey];
    simpl; try reflexivity;
    rewrite (Z.compare_antisym ey ex);
    destruct (ey ?= ex)%Z; simpl; try reflexivity;
    change Eq with (CompOpp Eq) at 1;
    rewrite <- (Pos.compare_cont_antisym mx my Eq); simpl;
    try rewrite CompOpp_involutive; reflexivity.
Qed.

(** [x <= y] excludes [y < x]. *)
Lemma le_not_lt (x y : JS.number) : JS.le x y = true -> JS.lt y x = false.
Proof.
  unfold JS.le, JS.lt, SFleb, SFltb.
  rewrite (SFcompare_antisym x y).
  destruct (SFcompare x y) as [[]|]; simpl; congruence.
Qed.

(** A positive integer passes the whole amount test of [parseInstruction]. *)
Lemma isPositiveInteger_amount_ok (x : JS.number) :
  isPositiveInteger x = true ->
  JS.isNaN x || JS.le x JS.zero || negb (isPositiveInteger x) = false.
Proof.
  intros H. rewrite H.
  unfold isPositiveInteger in H. apply andb_true_iff in H as [_ H].
  destruct x as [[]|[]| |[] m e]; simpl in *; try discriminate; reflexivity.
Qed.

(** ** The account store *)

Lemma findFrom_bounds id l i j :
  findFrom id l i = Some j -> i <= j.
Proof.
  revert i; induction l as [|a r IH]; intros i; simpl; [discriminate|].
  destruct (JS.strictEq id (Account.id a)).
  - intros [= <-]. lia.
  - intros H. apply IH in H. lia.
Qed.

Lemma findFrom_nth id l i j :
  findFrom id l i = Some j ->
  exists a, nth_error l (j - i) = Some a /\ JS.strictEq id (Account.id a) = true.
Proof.
  revert i; induction l as [|a r IH]; intros i; simpl; [discriminate|].
  destruct (JS.strictEq id (Account.id a)) eqn:E.
  - intros [= <-]. rewrite Nat.sub_diag. exists a. now split.
  - intros H. pose proof (findFrom_bounds _ _ _ _ H) as Hb.
    destruct (IH _ H) as (b & Hn & Hb').
    exists b. split; [|assumption].
    replace (j - i) with (S (j - S i)) by lia. exact Hn.
Qed.

(** What [find] returns refers to an element of the array. *)
Lemma find_nth id l j :
  findFrom id l 0 = Some j ->
  exists a, nth_error l j = Some a /\ JS.strictEq id (Account.id a) = true.
Proof.
  intros H. destruct (findFrom_nth _ _ _ _ H) as (a & Hn & Ha).
  rewrite Nat.sub_0_r in Hn. now exists a.
Qed.

Lemma find_not_dangling id l j :
  findFrom id l 0 = Some j -> nth_error l j = None -> False.
Proof.
  intros H Hn. destruct (find_nth _ _ _ H) as (a & Ha & _). congruence.
Qed.

(** Two ids that differ are found in two different objects. *)
Lemma find_distinct d c l i j :
  findFrom (Some d) l 0 = Some i ->
  findFrom (Some c) l 0 = Some j ->
  String.eqb d c = false ->
  i <> j.
Proof.
  intros Hi Hj Hdc ->.
  destruct (find_nth _ _ _ Hi) as (a & Ha & Ea).
  destruct (find_nth _ _ _ Hj) as (b & Hb & Eb).
  assert (a = b) by congruence. subst b.
  simpl in Ea, Eb.
  apply String.eqb_eq in Ea, Eb. subst.
  rewrite String.eqb_refl in Hdc. discriminate.
Qed.

Lemma nth_error_updateAt_same i f l a :
  nth_error l i = Some a -> nth_error (updateAt i f l) i = Some (f a).
Proof.
  revert i; induction l as [|x r IH]; intros [|i]; simpl; try discriminate.
  - now intros [= ->].
  - apply IH.
Qed.

Lemma nth_error_updateAt_other i j f l :
  i <> j -> nth_error (updateAt i f l) j = nth_error l j.
Proof.
  revert i j; induction l as [|x r IH]; intros [|i] [|j] H; simpl;
    try reflexivity; try congruence.
  apply IH. congruence.
Qed.

(** After a transfer between two different objects, each has been updated
    once. *)
Lemma transfer_debit i j amount l a :
  i <> j -> nth_error l i = Some a ->
  nth_error (transfer i j amount l) i = Some (debited amount a).
Proof.
  intros H Ha. unfold transfer.
  rewrite nth_error_updateAt_other by congruence.
  now apply nth_error_updateAt_same.
Qed.

Lemma transfer_credit i j amount l a :
  i <> j -> nth_error l j = Some a ->
  nth_error (transfer i j amount l) j = Some (credited amount a).
Proof.
  intros H Ha. unfold transfer.
  apply nth_error_updateAt_same.
  now rewrite nth_error_updateAt_other.
Qed.

Lemma transfer_other i j amount l k :
  k <> i -> k <> j ->
  nth_error (transfer i j amount l) k = nth_error l k.
Proof.
  intros Hi Hj. unfold transfer.
  rewrite !nth_error_updateAt_other by congruence. reflexivity.
Qed.

(* ================================================================== *)
(** * Symbolic execution of the service                                *)
(* ================================================================== *)

Ltac head_of t :=
  lazymatch t with
  | ?f _ => head_of f
  | _ => t
  end.

(** The scrutinee a stuck run is waiting for. *)
Ltac stuck t :=
  lazymatch t with
  | match ?x with _ => _ end => stuck x
  | String.eqb (match ?x with _ => _ end) _ => stuck x
  | ?f _ =>
      let h := head_of f in
      lazymatch h with
      | match ?x with _ => _ end => stuck x
      | _ => t
      end
  | _ => t
  end.

Lemma truthy_None : JS.truthy None = false.
Proof. reflexivity. Qed.

Lemma successful_eqb : ("successful" =? "successful") = true.
Proof. reflexivity. Qed.

Lemma pending_eqb : ("pending" =? "successful") = false.
Proof. reflexivity. Qed.

(** Unfolds the monad and the accessors of the state, and nothing of the
    built-ins. *)
Ltac exec :=
  cbv beta iota zeta delta
    [parseInstruction initialState
     tryBody catchBlock tryCatch bind when ret throw throwAppError
     setParsed getParsed find read updateBalance toUpperCaseOf isValidAccountId
     parsed data_accounts fst snd andb orb negb option_map JS.strictEq
     Data.accounts Data.instruction
     Parsed.set_type Parsed.set_amount Parsed.set_currency
     Parsed.set_debit_account Parsed.set_credit_account Parsed.set_execute_by
     Parsed.set_accounts Parsed.initial
     Parsed.type Parsed.amount Parsed.currency Parsed.debit_account
     Parsed.credit_account Parsed.execute_by Parsed.accounts] in *;
  rewrite ?successful_eqb, ?pending_eqb, ?truthy_None in *;
  cbn [Account.id Account.balance Account.currency] in *.

(** The two reads that follow the two balance updates. *)
Lemma read_after_updates i j f g l a b :
  i <> j -> nth_error l i = Some a -> nth_error l j = Some b ->
  nth_error (updateAt j g (updateAt i f l)) i = Some (f a) /\
  nth_error (updateAt j g (updateAt i f l)) j = Some (g b).
Proof.
  intros Hij Ha Hb. split.
  - rewrite nth_error_updateAt_other by congruence.
    now apply nth_error_updateAt_same.
  - apply nth_error_updateAt_same.
    now rewrite nth_error_updateAt_other.
Qed.

Ltac settle_reads H :=
  match goal with
  | F1 : findFrom (Some ?d) ?l 0 = Some ?i,
    F2 : findFrom (Some ?c) ?l 0 = Some ?j,
    D : String.eqb ?d ?c = false,
    N1 : nth_error ?l ?i = Some ?a,
    N2 : nth_error ?l ?j = Some ?b |- _ =>
      let R := fresh "R" in
      lazymatch type of H with
      | context [updateAt j ?g (updateAt i ?f l)] =>
          pose proof (read_after_updates i j f g l a b
                        (find_distinct d c l i j F1 F2 D) N1 N2) as R;
          rewrite (proj1 R), (proj2 R) in H; clear R
      end
  end.

(** One step of the run recorded in [H]: a case analysis on what it waits
    for. *)
Ltac step H :=
  lazymatch type of H with
  | (_, _) = _ => fail "the run has ended"
  | ?l = _ =>
      let b := stuck l in
      first
        [ match goal with E : b = _ |- _ => rewrite E in H end
        | lazymatch b with
          | nth_error (updateAt _ _ (updateAt _ _ _)) _ => settle_reads H
          end
        | destruct b eqn:? ];
      exec
  end.

Ltac dangling :=
  exfalso;
  match goal with
  | F : findFrom _ ?l 0 = Some ?n, N : nth_error ?l ?n = None |- _ =>
      exact (find_not_dangling _ _ _ F N)
  end.

(** A failure leaves the account objects as they were. *)
Lemma tryBody_throw_store M today data st e :
  tryBody M today data (initialState data) = (st, Throw e) ->
  data_accounts st = Data.accounts data.
Proof.
  intros H. destruct data as [accounts instruction]. exec.
  repeat (step H; try discriminate H; try dangling;
          try (injection H as <- <-; reflexivity)).
Qed.

(** A failure does not depend on the date of the call. *)
Lemma tryBody_throw_today M today today' data st e :
  tryBody M today data (initialState data) = (st, Throw e) ->
  tryBody M today' data (initialState data) = (st, Throw e).
Proof.
  intros H. destruct data as [accounts instruction]. exec.
  repeat (step H; try discriminate H; try dangling; try exact H).
Qed.

(** What a run of the [try] block that ends normally has done: it found the
    two account objects, different ones, and either scheduled the transfer
    and touched nothing, or applied it to both. *)
Lemma tryBody_normal M today data st r :
  tryBody M today data (initialState data) = (st, Normal r) ->
  exists i j a b amount,
    i <> j /\
    nth_error (Data.accounts data) i = Some a /\
    nth_error (Data.accounts data) j = Some b /\
    Response.amount r = Some amount /\
    ((Response.status r = "pending" /\
      Response.status_code r = Some "AP02" /\
      data_accounts st = Data.accounts data /\
      Response.accounts r =
        [Snapshot.mk (Account.id a) (Account.balance a) (Account.balance a)
           (Account.currency a);
         Snapshot.mk (Account.id b) (Account.balance b) (Account.balance b)
           (Account.currency b)] /\
      exists d, Response.execute_by r = Some d /\ JS.gt d today = true)
     \/
     (Response.status r = "successful" /\
      Response.status_code r = Some "AP00" /\
      data_accounts st = transfer i j amount (Data.accounts data) /\
      Response.accounts r =
        [Snapshot.mk (Account.id a) (JS.sub (Account.balance a) amount)
           (Account.balance a) (Account.currency a);
         Snapshot.mk (Account.id b) (JS.add (Account.balance b) amount)
           (Account.balance b) (Account.currency b)] /\
      forall d, Response.execute_by r = Some d -> JS.gt d today = false)).
Proof.
  intros H. destruct data as [accounts instruction]. exec.
  repeat (step H; try discriminate H; try dangling).
  all: injection H as <- <-.
  all: match goal with
  | F1 : findFrom (Some ?d) ?l 0 = Some ?i,
    F2 : findFrom (Some ?c) ?l 0 = Some ?j,
    D : String.eqb ?d ?c = false,
    N1 : nth_error ?l ?i = Some ?a,
    N2 : nth_error ?l ?j = Some ?b |- _ =>
      exists i, j, a, b; eexists;
      split; [exact (find_distinct d c l i j F1 F2 D)|];
      split; [exact N1|]; split; [exact N2|]; split; [reflexivity|]
  end.
  all: cbn [Response.status Response.status_code Response.accounts
            Response.execute_by data_accounts].
  all: first
    [ left; repeat (split; [reflexivity|]);
      eexists; split; [reflexivity|]; assumption
    | right; repeat (split; [reflexivity|]);
      intros d' [= <-]; assumption
    | right; repeat (split; [reflexivity|]);
      intros d' [=] ].
Qed.

(** An instruction that is in order has its ten leading positions. *)
Lemma mismatchFrom_none_length expected keywords i w :
  mismatchFrom (expected ++ [Some w]) keywords i = false ->
  i + List.length expected < List.length keywords.
Proof.
  revert i; induction expected as [|e rest IH]; intros i; simpl.
  - destruct (nth_error keywords i) eqn:E; simpl.
    + intros _. apply nth_error_Some. rewrite Nat.add_0_r. congruence.
    + discriminate.
  - destruct e as [v|].
    + destruct (negb _); [discriminate|].
      intros H. apply IH in H. lia.
    + intros H. apply IH in H. lia.
Qed.

Lemma isOutOfOrder_length keywords type :
  isOutOfOrder keywords (Some type) = false ->
  String.eqb type "DEBIT" = true \/ String.eqb type "CREDIT" = true ->
  10 <= List.length keywords.
Proof.
  unfold isOutOfOrder. cbn [JS.strictEq].
  intros H [E|E]; rewrite E in H; cbn [andb] in H.
  - destruct (mismatchFrom expectedDebit keywords 0) eqn:F; [discriminate|].
    apply (mismatchFrom_none_length (removelast expectedDebit)) in F.
    simpl in F. lia.
  - destruct (String.eqb type "DEBIT" && mismatchFrom expectedDebit keywords 0);
      [discriminate|].
    destruct (mismatchFrom expectedCredit keywords 0) eqn:F; [discriminate|].
    apply (mismatchFrom_none_length (removelast expectedCredit)) in F.
    simpl in F. lia.
Qed.

(** What the [try] block throws: an application error with one of the eleven
    failure codes, or, for an instruction of exactly ten tokens, the
    [TypeError] of reading [length] of the missing eleventh one. *)
Lemma tryBody_throw_code M today data st e :
  tryBody M today data (initialState data) = (st, Throw e) ->
  (exists m c, e = AppError m c /\ In c failureCodes) \/
  (e = undefinedRead "length" /\
   List.length (splitData (Data.instruction data)) = 10).
Proof.
  intros H. destruct data as [accounts instruction]. exec.
  repeat (step H; try discriminate H; try dangling;
          try (injection H as <- <-; left; do 2 eexists;
               split; [reflexivity|simpl; auto 20])).
  all: try (exfalso;
            match goal with
            | L : (List.length ?k <? 8)%nat = false,
              N : nth_error ?k _ = None |- _ =>
                apply nth_error_None in N; apply Nat.ltb_ge in L; lia
            end).
  all: injection H as <- <-; right; split; [reflexivity|].
  all: rewrite <- normalize_length.
  all: match goal with
       | N : nth_error ?k 10 = None, O : isOutOfOrder ?k (Some ?ty) = false |- _ =>
           apply nth_error_None in N;
           assert (10 <= List.length k)
             by (apply (isOutOfOrder_length k ty O); auto);
           lia
       end.
Qed.

(** The [catch] block ends normally, with the failure response built from
    the accumulator, to which it has at most added account snapshots; the
    account objects are only read. *)
Lemma catchBlock_returns e st :
  exists snapshots,
    catchBlock e st =
      (mkState (Parsed.set_accounts snapshots (parsed st)) (data_accounts st),
       Normal (buildErrorResponse e (Parsed.set_accounts snapshots (parsed st)))).
Proof.
  destruct st as [[ty am cu da ca ex ac] accounts].
  destruct (catchBlock e _) as [st' c] eqn:H. exec.
  repeat (step H; try dangling).
  all: injection H as <- <-; eexists; reflexivity.
Qed.

(** A failure does not depend on the message table either, but for the
    message it carries. *)
Lemma tryBody_throw_messages M M' today today' data st e :
  tryBody M today data (initialState data) = (st, Throw e) ->
  exists e',
    tryBody M' today' data (initialState data) = (st, Throw e') /\
    errorCode e' = errorCode e.
Proof.
  intros H. destruct data as [accounts instruction]. exec.
  repeat (step H; try discriminate H; try dangling;
          try (injection H as <- <-; eexists; split; reflexivity)).
Qed.

Lemma parseInstruction_unfold M today data :
  parseInstruction M today data =
    match tryBody M today data (initialState data) with
    | (st, Normal r) => (st, Normal r)
    | (st, Throw err) => catchBlock err st
    end.
Proof. reflexivity. Qed.

(** The two ways a call completes: through the [catch] block, with the
    failure response and the account objects as they were, or with what the
    [try] block returned. *)
Lemma parseInstruction_cases M today data :
  exists st r,
    parseInstruction M today data = (st, Normal r) /\
    ((exists st1 e snapshots,
        tryBody M today data (initialState data) = (st1, Throw e) /\
        r = buildErrorResponse e (Parsed.set_accounts snapshots (parsed st1)) /\
        data_accounts st = Data.accounts data)
     \/ tryBody M today data (initialState data) = (st, Normal r)).
Proof.
  rewrite parseInstruction_unfold.
  destruct (tryBody M today data (initialState data)) as [st1 [r|e]] eqn:H.
  - exists st1, r. split; [reflexivity|]. now right.
  - destruct (catchBlock_returns e st1) as (snapshots & ->).
    do 2 eexists. split; [reflexivity|]. left.
    exists st1, e, snapshots. split; [reflexivity|]. split; [reflexivity|].
    simpl. exact (tryBody_throw_store _ _ _ _ _ H).
Qed.

Lemma normal_not_failed M today data st r :
  tryBody M today data (initialState data) = (st, Normal r) ->
  Response.status r = "pending" \/ Response.status r = "successful".
Proof.
  intros H. apply tryBody_normal in H.
  destruct H as (i & j & a & b & amount & _ & _ & _ & _ & [H|H]);
    [left|right]; apply H.
Qed.

Lemma buildErrorResponse_status e p :
  Response.status (buildErrorResponse e p) = "failed".
Proof. reflexivity. Qed.

(** A response that is not a failure is what the [try] block returned. *)
Lemma not_failed_is_tryBody M today data st r :
  parseInstruction M today data = (st, Normal r) ->
  Response.status r <> "failed" ->
  tryBody M today data (initialState data) = (st, Normal r).
Proof.
  intros H Hr.
  destruct (parseInstruction_cases M today data) as (st0 & r0 & E & C).
  rewrite E in H. injection H as <- <-.
  destruct C as [(st1 & e & snapshots & _ & -> & _)|C]; [|exact C].
  now destruct Hr.
Qed.

(** ** Runs on instructions given by their tokens *)

Ltac exec_tokens :=
  exec;
  cbn [normalize JS.mapIndex JS.mapIndexFrom Nat.eqb nth_error List.length
       Nat.ltb Nat.leb app orb andb negb option_map JS.strictEq] in *;
  rewrite ?toUpperCase_idempotent, ?String.eqb_refl in *;
  exec.

(** A step that first evaluates a test on literal strings. *)
Ltac step_tokens H :=
  lazymatch type of H with
  | (_, _) = _ => fail "the run has ended"
  | ?l = _ =>
      let b := stuck l in
      let v := lazymatch b with
               | String.eqb _ _ => eval vm_compute in b
               | JS.truthy _ => eval vm_compute in b
               | _ => b
               end in
      lazymatch v with
      | true => change b with true in H; exec
      | false => change b with false in H; exec
      | _ => step H
      end
  end.

(** A step of a run on a literal instruction: what the run waits for is
    evaluated when it has a value. *)
Ltac step_eval H :=
  lazymatch type of H with
  | (_, _) = _ => fail "the run has ended"
  | ?l = _ =>
      let b := stuck l in
      let v := eval vm_compute in b in
      lazymatch v with
      | true => change b with v in H; exec
      | false => change b with v in H; exec
      | Some _ => change b with v in H; exec
      | None => change b with v in H; exec
      | _ => step H
      end
  end.

Ltac run_literal H :=
  exec;
  repeat match type of H with
         | context [splitData ?s] =>
             let v := eval vm_compute in (normalize (splitData s)) in
             change (normalize (splitData s)) with v in H
         end;
  exec_tokens;
  repeat (step_eval H; try dangling).

(** ** Dates *)

Lemma dateChar_below_letters i c :
  dateChar i c = true -> (c <? "A")%char = true.
Proof.
  unfold dateChar.
  destruct ((i =? 4)%nat || (i =? 7)%nat);
    destruct c as [[] [] [] [] [] [] [] []]; try discriminate; reflexivity.
Qed.

Lemma compare_toUpperChar t c :
  (t <? "A")%char = true ->
  Ascii.compare t (JS.toUpperChar c) = Ascii.compare t c.
Proof.
  unfold Ascii.ltb, Ascii.compare. intros H.
  assert (Ht : (N_of_ascii t < 65)%N).
  { destruct (N_of_ascii t ?= N_of_ascii "A")%N eqn:E; try discriminate.
    apply N.compare_lt_iff in E. exact E. }
  destruct c as [[] [] [] [] [] [] [] []]; try reflexivity;
    match goal with
    | |- context [JS.toUpperChar ?c] =>
        let v := eval vm_compute in (JS.toUpperChar c) in
        change (JS.toUpperChar c) with v
    end;
    (transitivity Lt; [|symmetry]); apply N.compare_lt_iff; simpl; lia.
Qed.

Lemma compare_toUpperCase i t d :
  dateCharsFrom i t = true ->
  String.compare t (JS.toUpperCase d) = String.compare t d.
Proof.
  revert i d; induction t as [|c t IH]; intros i [|x d]; simpl; try reflexivity.
  intros H. apply andb_true_iff in H as [Hc Ht].
  rewrite (compare_toUpperChar c x (dateChar_below_letters _ _ Hc)).
  destruct (Ascii.compare c x); try reflexivity.
  apply (IH _ _ Ht).
Qed.

(** Against a date in [YYYY-MM-DD] form, a string and its upper-cased form
    compare alike: the date of the instruction may be compared as it was
    written. *)
Lemma gt_toUpperCase today d :
  isoDate today = true -> JS.gt (JS.toUpperCase d) today = JS.gt d today.
Proof.
  unfold isoDate, JS.gt, String.ltb. intros H.
  apply andb_true_iff in H as [_ H].
  now rewrite (compare_toUpperCase _ _ _ H).
Qed.

(** ** The tokenizer *)

Lemma split_spaceless s :
  Forall (fun w => spaceless w = true) (JS.split " " s).
Proof.
  induction s as [|c r IH]; simpl.
  - repeat constructor.
  - destruct (Ascii.eqb c " ") eqn:E.
    + constructor; [reflexivity|exact IH].
    + destruct (JS.split " " r) as [|w ws].
      * repeat constructor. unfold spaceless. simpl. now rewrite E.
      * inversion IH as [|? ? Hw Hws]; subst.
        constructor; [|exact Hws].
        unfold spaceless in *. simpl. now rewrite E.
Qed.

(** The tokens are not empty and hold no space. *)
Lemma splitData_tokens s :
  Forall (fun w => JS.nonEmpty w = true /\ spaceless w = true) (splitData s).
Proof.
  unfold splitData. apply Forall_forall. intros w Hw.
  apply filter_In in Hw as [Hw Hn]. split; [exact Hn|].
  exact (proj1 (Forall_forall _ _) (split_spaceless s) w Hw).
Qed.

(** Leading spaces are dropped. *)
Lemma splitData_space s : splitData (String " " s) = splitData s.
Proof. reflexivity. Qed.

Lemma split_word w s :
  spaceless w = true ->
  JS.split " " (w ++ String " " s) = w :: JS.split " " s.
Proof.
  induction w as [|c r IH]; intros Hs; [reflexivity|].
  unfold spaceless in Hs. simpl in Hs.
  apply andb_true_iff in Hs as [Hc Hr]. apply negb_true_iff in Hc.
  simpl. rewrite Hc, (IH Hr). reflexivity.
Qed.

(** A word, then a space: the word is the first token. *)
Lemma splitData_word w s :
  JS.nonEmpty w = true -> spaceless w = true ->
  splitData (w ++ String " " s) = w :: splitData s.
Proof.
  intros Hn Hs. unfold splitData.
  rewrite (split_word w s Hs). simpl. now rewrite Hn.
Qed.

(** The tokens, put end to end, are the string without its spaces. *)
Lemma append_empty s : s ++ "" = s.
Proof. induction s as [|c r IH]; simpl; congruence. Qed.

Lemma concat_empty_cons x xs :
  String.concat "" (x :: xs) = x ++ String.concat "" xs.
Proof.
  destruct xs; simpl; [now rewrite append_empty|reflexivity].
Qed.

Lemma concat_split s :
  String.concat "" (JS.split " " s) = withoutSpaces s.
Proof.
  induction s as [|c r IH]; [reflexivity|].
  cbn [JS.split withoutSpaces]. destruct (Ascii.eqb c " ").
  - rewrite concat_empty_cons. exact IH.
  - destruct (JS.split " " r) as [|w ws] eqn:E.
    + simpl in IH. now rewrite <- IH.
    + rewrite concat_empty_cons in *. simpl. now rewrite IH.
Qed.

Lemma concat_filter_nonEmpty l :
  String.concat "" (filter JS.nonEmpty l) = String.concat "" l.
Proof.
  induction l as [|w ws IH]; [reflexivity|].
  cbn [filter]. rewrite (concat_empty_cons w ws).
  destruct w as [|c r]; cbn [JS.nonEmpty].
  - exact IH.
  - rewrite concat_empty_cons. now rewrite IH.
Qed.

(** [split(' ')] splits where the character is a space, and
    [filter(Boolean)] drops the empty segments. *)
Lemma split_splitWhen s : JS.split " " s = splitWhen isSpace s.
Proof.
  induction s as [|c r IH]; [reflexivity|].
  cbn [JS.split splitWhen]. unfold isSpace at 1.
  destruct (Ascii.eqb c " "); now rewrite IH.
Qed.

Lemma splitData_spaceWords s : splitData s = spaceWords s.
Proof. unfold splitData, spaceWords. now rewrite split_splitWhen. Qed.

(* ================================================================== *)
(** * Properties of the service                                        *)
(* ================================================================== *)

(** Claim C1.  A well-formed DEBIT instruction without an ON clause, naming
    two different accounts of the account set whose currency is the stated
    one (compared as the service does, without regard to case), the debit
    account holding at least the amount: the call returns status
    [successful] with code [AP00], the debit snapshot has
    [balance = balance_before - amount], the credit snapshot
    [balance = balance_before + amount], and the two account objects carry
    these balances. *)
Theorem debit_executes M today accounts instruction
    amountTok currencyTok debitId creditId i j a b :
  debitSkeleton (splitData instruction) amountTok currencyTok debitId creditId ->
  isPositiveInteger (JS.Number (JS.toUpperCase amountTok)) = true ->
  includes supported (JS.toUpperCase currencyTok) = true ->
  accountIdChars debitId = true ->
  accountIdChars creditId = true ->
  debitId <> creditId ->
  findFrom (Some debitId) accounts 0 = Some i ->
  nth_error accounts i = Some a ->
  findFrom (Some creditId) accounts 0 = Some j ->
  nth_error accounts j = Some b ->
  Account.currency a = Account.currency b ->
  JS.toUpperCase (Account.currency a) = JS.toUpperCase currencyTok ->
  JS.le (JS.Number (JS.toUpperCase amountTok)) (Account.balance a) = true ->
  exists st r,
    parseInstruction M today (Data.mk accounts instruction) = (st, Normal r) /\
    Response.status r = "successful" /\
    Response.status_code r = Some "AP00" /\
    Response.accounts r =
      [Snapshot.mk (Account.id a)
         (JS.sub (Account.balance a) (JS.Number (JS.toUpperCase amountTok)))
         (Account.balance a) (Account.currency a);
       Snapshot.mk (Account.id b)
         (JS.add (Account.balance b) (JS.Number (JS.toUpperCase amountTok)))
         (Account.balance b) (Account.currency b)] /\
    data_accounts st =
      transfer i j (JS.Number (JS.toUpperCase amountTok)) accounts.
Proof.
  intros (t0 & t3 & t4 & t6 & t7 & t8 & t9 & Htok & U0 & U3 & U4 & U6 & U7 & U8 & U9)
         Hamount Hcur Hd Hc Hne Fi Ni Fj Nj Hab Hac Hle.
  pose proof (isPositiveInteger_amount_ok _ Hamount) as Hok.
  apply orb_false_iff in Hok as [Hok _].
  apply orb_false_iff in Hok as [Hnan Hpos].
  apply le_not_lt in Hle.
  apply String.eqb_neq in Hne.
  destruct (parseInstruction M today _) as [st c] eqn:H.
  exec. rewrite Htok in H. exec_tokens.
  rewrite U0, U3, U4, U6, U7, U8, U9 in H. exec_tokens.
  assert (Hord : isOutOfOrder
             ["DEBIT"; JS.toUpperCase amountTok; JS.toUpperCase currencyTok;
              "FROM"; "ACCOUNT"; debitId; "FOR"; "CREDIT"; "TO"; "ACCOUNT";
              creditId] (Some "DEBIT") = false) by reflexivity.
  assert (Hab' : String.eqb (Account.currency a) (Account.currency b) = true)
    by (rewrite Hab; apply String.eqb_refl).
  assert (Hac' : String.eqb (JS.toUpperCase currencyTok)
                   (JS.toUpperCase (Account.currency a)) = true)
    by (rewrite Hac; apply String.eqb_refl).
  repeat step H.
  injection H as <- <-.
  do 2 eexists. split; [reflexivity|].
  repeat split.
Qed.

(** The example of the spec: 2000 NGN from ACC-001 (5000) to ACC-002 (1500)
    leaves 3000 and 3500. *)
Lemma debit_executes_example :
  exists st r,
    parseInstruction readmeMessages "2026-11-02"
      (Data.mk exampleAccounts exampleInstruction) = (st, Normal r) /\
    Response.status r = "successful" /\
    Response.status_code r = Some "AP00" /\
    Response.accounts r =
      [Snapshot.mk "ACC-001" (JS.ofZ 3000) (JS.ofZ 5000) "NGN";
       Snapshot.mk "ACC-002" (JS.ofZ 3500) (JS.ofZ 1500) "NGN"] /\
    data_accounts st =
      [Account.mk "ACC-001" (JS.ofZ 3000) "NGN";
       Account.mk "ACC-002" (JS.ofZ 3500) "NGN"].
Proof.
  apply (debit_executes readmeMessages "2026-11-02" exampleAccounts
           exampleInstruction "2000" "NGN" "ACC-001" "ACC-002" 0 1
           (Account.mk "ACC-001" (JS.ofZ 5000) "NGN")
           (Account.mk "ACC-002" (JS.ofZ 1500) "NGN")).
  - exists "DEBIT", "FROM", "ACCOUNT", "FOR", "CREDIT", "TO", "ACCOUNT".
    repeat split; reflexivity.
  - reflexivity.
  - reflexivity.
  - reflexivity.
  - reflexivity.
  - discriminate.
  - reflexivity.
  - reflexivity.
  - reflexivity.
  - reflexivity.
  - reflexivity.
  - reflexivity.
  - reflexivity.
Defined.

(** Claim C2.  An instruction that passes all validations (its response is
    not a failure) and carries an ON date, written in ASCII characters, on a
    day [today] in [YYYY-MM-DD] form; the response echoes the date,
    upper-cased.  When the date is greater than [today] in the order of
    strings, the response is [pending] with code [AP02], no account object
    is touched and every snapshot has [balance = balance_before].
    Otherwise the response is [successful] with code [AP00] and the
    balances are mutated: two different account objects have been updated,
    the one debited and the other credited with the amount of the
    instruction, and the snapshots show the balances before and after; and
    the call does what it does on the same instruction without its ON
    clause: the same account objects afterwards and the same response, but
    for [execute_by]. *)
Theorem scheduling_rule M today accounts instruction undated
    t0 t1 t2 t3 t4 t5 t6 t7 t8 t9 t10 on date rest st r :
  splitData instruction =
    t0 :: t1 :: t2 :: t3 :: t4 :: t5 :: t6 :: t7 :: t8 :: t9 :: t10 ::
    on :: date :: rest ->
  JS.toUpperCase on = "ON" ->
  isAscii date = true ->
  splitData undated = [t0; t1; t2; t3; t4; t5; t6; t7; t8; t9; t10] ->
  isoDate today = true ->
  parseInstruction M today (Data.mk accounts instruction) = (st, Normal r) ->
  Response.status r <> "failed" ->
  Response.execute_by r = Some (JS.toUpperCase date) /\
  (JS.gt date today = true ->
   Response.status r = "pending" /\
   Response.status_code r = Some "AP02" /\
   data_accounts st = accounts /\
   Forall (fun s => Snapshot.balance s = Snapshot.balance_before s)
     (Response.accounts r)) /\
  (JS.gt date today = false ->
   Response.status r = "successful" /\
   Response.status_code r = Some "AP00" /\
   (exists i j a b,
      i <> j /\
      nth_error accounts i = Some a /\
      nth_error accounts j = Some b /\
      data_accounts st = transfer i j (JS.Number (JS.toUpperCase t1)) accounts /\
      nth_error (data_accounts st) i =
        Some (debited (JS.Number (JS.toUpperCase t1)) a) /\
      nth_error (data_accounts st) j =
        Some (credited (JS.Number (JS.toUpperCase t1)) b) /\
      Response.accounts r =
        [Snapshot.mk (Account.id a)
           (JS.sub (Account.balance a) (JS.Number (JS.toUpperCase t1)))
           (Account.balance a) (Account.currency a);
         Snapshot.mk (Account.id b)
           (JS.add (Account.balance b) (JS.Number (JS.toUpperCase t1)))
           (Account.balance b) (Account.currency b)]) /\
   exists st' r',
     parseInstruction M today (Data.mk accounts undated) = (st', Normal r') /\
     Response.execute_by r' = None /\
     r = withExecuteBy (Some (JS.toUpperCase date)) r' /\
     data_accounts st = data_accounts st').
Proof.
  intros Htok Hon Hascii Hund Hiso H Hok.
  rewrite <- (gt_toUpperCase today date Hiso).
  apply not_failed_is_tryBody in H; [|exact Hok]. clear Hok.
  destruct (parseInstruction M today (Data.mk accounts undated)) as [st' c'] eqn:H'.
  exec. rewrite Htok in H. rewrite Hund in H'.
  unfold isOutOfOrder in *.
  cbn [mismatchFrom expectedDebit expectedCredit] in *.
  exec_tokens.
  rewrite Hon in *. exec_tokens.
  repeat (step_tokens H; try discriminate H; try dangling).
  all: repeat (step_tokens H'; try dangling).
  all: injection H as <- <-; injection H' as <- <-.
  all: cbn [Response.status Response.status_code Response.execute_by
            Response.accounts data_accounts].
  all: split; [reflexivity|].
  all: split; intros Hgt; try congruence.
  all: repeat (split; [reflexivity|]); try reflexivity.
  all: try (repeat constructor; fail).
  all: split; [|do 2 eexists; repeat split].
  all: match goal with
  | F1 : findFrom (Some ?d) ?l 0 = Some ?i,
    F2 : findFrom (Some ?c) ?l 0 = Some ?j,
    D : String.eqb ?d ?c = false,
    N1 : nth_error ?l ?i = Some ?a,
    N2 : nth_error ?l ?j = Some ?b |- _ =>
      exists i, j, a, b;
      pose proof (find_distinct d c l i j F1 F2 D) as Hij;
      split; [exact Hij|];
      split; [exact N1|]; split; [exact N2|]; split; [reflexivity|];
      split; [exact (transfer_debit i j _ l a Hij N1)|];
      split; [exact (transfer_credit i j _ l b Hij N2)|];
      reflexivity
  end.
Qed.

(** The example instruction, scheduled for 2026-12-25: pending on
    2026-11-02, with 5000 and 1500 left as they are; executed on the day
    itself, leaving 3000 and 3500. *)
Lemma scheduling_rule_example :
  (exists st r,
     parseInstruction readmeMessages "2026-11-02"
       (Data.mk exampleAccounts scheduledInstruction) = (st, Normal r) /\
     Response.execute_by r = Some "2026-12-25" /\
     Response.status r = "pending" /\
     Response.status_code r = Some "AP02" /\
     data_accounts st = exampleAccounts /\
     Forall (fun s => Snapshot.balance s = Snapshot.balance_before s)
       (Response.accounts r)) /\
  (exists st r,
     parseInstruction readmeMessages "2026-12-25"
       (Data.mk exampleAccounts scheduledInstruction) = (st, Normal r) /\
     Response.execute_by r = Some "2026-12-25" /\
     Response.status r = "successful" /\
     Response.status_code r = Some "AP00" /\
     data_accounts st =
       [Account.mk "ACC-001" (JS.ofZ 3000) "NGN";
        Account.mk "ACC-002" (JS.ofZ 3500) "NGN"] /\
     Response.accounts r =
       [Snapshot.mk "ACC-001" (JS.ofZ 3000) (JS.ofZ 5000) "NGN";
        Snapshot.mk "ACC-002" (JS.ofZ 3500) (JS.ofZ 1500) "NGN"]).
Proof.
  assert (T : splitData scheduledInstruction =
              ["DEBIT"; "2000"; "NGN"; "FROM"; "ACCOUNT"; "ACC-001"; "FOR";
               "CREDIT"; "TO"; "ACCOUNT"; "ACC-002"; "ON"; "2026-12-25"])
    by (vm_compute; reflexivity).
  assert (U : splitData exampleInstruction =
              ["DEBIT"; "2000"; "NGN"; "FROM"; "ACCOUNT"; "ACC-001"; "FOR";
               "CREDIT"; "TO"; "ACCOUNT"; "ACC-002"])
    by (vm_compute; reflexivity).
  split.
  - do 2 eexists. split; [vm_compute; reflexivity|].
    match goal with
    | |- Response.execute_by ?r = _ /\ _ /\ _ /\ data_accounts ?st = _ /\ _ =>
        assert (H : parseInstruction readmeMessages "2026-11-02"
                      (Data.mk exampleAccounts scheduledInstruction)
                    = (st, Normal r)) by (vm_compute; reflexivity);
        destruct (scheduling_rule readmeMessages "2026-11-02" exampleAccounts
                    scheduledInstruction exampleInstruction
                    _ _ _ _ _ _ _ _ _ _ _ _ _ _ st r
                    T eq_refl eq_refl U eq_refl H ltac:(discriminate))
          as (X & P & _)
    end.
    split; [exact X|]. apply P. reflexivity.
  - do 2 eexists. split; [vm_compute; reflexivity|].
    match goal with
    | |- Response.execute_by ?r = _ /\ _ /\ _ /\ data_accounts ?st = _ /\ _ =>
        assert (H : parseInstruction readmeMessages "2026-12-25"
                      (Data.mk exampleAccounts scheduledInstruction)
                    = (st, Normal r)) by (vm_compute; reflexivity);
        destruct (scheduling_rule readmeMessages "2026-12-25" exampleAccounts
                    scheduledInstruction exampleInstruction
                    _ _ _ _ _ _ _ _ _ _ _ _ _ _ st r
                    T eq_refl eq_refl U eq_refl H ltac:(discriminate))
          as (X & _ & P)
    end.
    split; [exact X|].
    destruct (P eq_refl) as (S1 & S2 & _).
    split; [exact S1|]. split; [exact S2|]. split; reflexivity.
Defined.

(** Claim C3.  A call ends with a response, and the account objects are
    then as they were on entry whenever the status is [pending] or [failed].
    Otherwise they are the account set after one whole transfer: the status
    is [successful], two different objects were updated, once each, the one
    debited and the other credited with the same amount, and every other
    object is as it was; never one half of it. *)
Theorem balances_mutated_only_on_success M today data :
  exists st r,
    parseInstruction M today data = (st, Normal r) /\
    (Response.status r = "pending" \/ Response.status r = "failed" ->
     data_accounts st = Data.accounts data) /\
    (data_accounts st = Data.accounts data \/
     exists i j a b amount,
       Response.status r = "successful" /\
       i <> j /\
       nth_error (Data.accounts data) i = Some a /\
       nth_error (Data.accounts data) j = Some b /\
       data_accounts st = transfer i j amount (Data.accounts data) /\
       nth_error (data_accounts st) i = Some (debited amount a) /\
       nth_error (data_accounts st) j = Some (credited amount b) /\
       forall k, k <> i -> k <> j ->
         nth_error (data_accounts st) k = nth_error (Data.accounts data) k).
Proof.
  destruct (parseInstruction_cases M today data) as (st & r & E & C).
  exists st, r. split; [exact E|].
  destruct C as [(st1 & e & snapshots & _ & _ & S)|C].
  - split; [intros _; exact S|left; exact S].
  - apply tryBody_normal in C.
    destruct C as (i & j & a & b & amount & Hij & Ha & Hb & _ & [P|P]).
    + destruct P as (_ & _ & S & _). split; [intros _; exact S|left; exact S].
    + destruct P as (Hs & _ & S & _). split.
      * rewrite Hs. intros [F|F]; discriminate F.
      * right. exists i, j, a, b, amount. rewrite S.
        repeat split; try assumption.
        -- now apply transfer_debit.
        -- now apply transfer_credit.
        -- intros k Hi Hj. now apply transfer_other.
Qed.

(** Claim C4, at the input where the service departs from it: on an
    instruction that stops after its tenth token, whatever the account set,
    the response is a failure whose [status_code] is [undefined], none of
    the thirteen codes. *)
Theorem ten_tokens_status_code_undefined M today accounts :
  exists st r,
    parseInstruction M today (Data.mk accounts tenTokenDebit) = (st, Normal r) /\
    Response.status r = "failed" /\
    Response.status_code r = None.
Proof.
  destruct (parseInstruction M today _) as [st c] eqn:H.
  unfold tenTokenDebit in H. run_literal H.
  all: injection H as <- <-; do 2 eexists; repeat split.
Qed.

(** Claim C5, at the input where the service departs from it: on a CREDIT
    instruction that stops after its tenth token the call ends normally, but
    with a response that is not a well-formed Outcome: it has no status
    code, and its reason is the text of the engine's [TypeError]. *)
Theorem ten_tokens_outcome_not_well_formed M today accounts :
  exists st r,
    parseInstruction M today (Data.mk accounts tenTokenCredit) = (st, Normal r) /\
    Response.status_reason r = message (undefinedRead "length") /\
    ~ wellFormedOutcome r.
Proof.
  destruct (parseInstruction M today _) as [st c] eqn:H.
  unfold tenTokenCredit in H. run_literal H.
  all: injection H as <- <-; do 2 eexists; split; [reflexivity|];
       split; [reflexivity|]; intros [_ [code F]]; discriminate F.
Qed.

(** Claim C6, as the service answers it: for the README's instruction with
    amount and currency swapped, whatever the account set, the response is a
    failure with code [AM01], not [SY02]: the keyword skeleton leaves
    positions 1 and 2 unchecked, and [Number("NGN")] is [NaN]. *)
Theorem swapped_amount_and_currency_is_AM01 M today accounts :
  exists st r,
    parseInstruction M today (Data.mk accounts swappedInstruction) = (st, Normal r) /\
    Response.status r = "failed" /\
    Response.status_code r = Some "AM01".
Proof.
  destruct (parseInstruction M today _) as [st c] eqn:H.
  unfold swappedInstruction in H. run_literal H.
  all: injection H as <- <-; do 2 eexists; repeat split.
Qed.

(** Claim C7, at the inputs where the service departs from it: on an
    unsupported currency the response has code [CU02] and its [currency] is
    [null], not the upper-cased token; on the amount [0] the response has
    code [AM01] and its [amount] is [null], not the number parsed. *)
Theorem failed_checks_are_not_echoed M today accounts :
  (exists st r,
     parseInstruction M today (Data.mk accounts unsupportedCurrencyInstruction)
       = (st, Normal r) /\
     Response.status_code r = Some "CU02" /\
     Response.currency r = None) /\
  (exists st r,
     parseInstruction M today (Data.mk accounts zeroAmountInstruction)
       = (st, Normal r) /\
     Response.status_code r = Some "AM01" /\
     JS.Number "0" = JS.zero /\
     Response.amount r = None).
Proof.
  split.
  - destruct (parseInstruction M today _) as [st c] eqn:H.
    unfold unsupportedCurrencyInstruction in H. run_literal H.
    all: injection H as <- <-; do 2 eexists; repeat split.
  - destruct (parseInstruction M today _) as [st c] eqn:H.
    unfold zeroAmountInstruction in H. run_literal H.
    all: injection H as <- <-; do 2 eexists; repeat split.
Qed.

(** Claim C8, as stated, fails: the example instruction and the same with a
    tab for its first space have the same whitespace-separated words, and
    the service executes the one and rejects the other as malformed. *)
Lemma tab_is_not_a_separator :
  whitespaceWords tabbedInstruction = whitespaceWords exampleInstruction /\
  exists st r st' r',
    parseInstruction readmeMessages "2026-11-02"
      (Data.mk exampleAccounts tabbedInstruction) = (st, Normal r) /\
    parseInstruction readmeMessages "2026-11-02"
      (Data.mk exampleAccounts exampleInstruction) = (st', Normal r') /\
    Response.status_code r = Some "SY03" /\
    Response.status_code r' = Some "AP00".
Proof.
  split; [vm_compute; reflexivity|].
  do 4 eexists.
  split; [vm_compute; reflexivity|].
  split; [vm_compute; reflexivity|].
  split; reflexivity.
Qed.

(** Claim C8, amended.  The tokenizer splits on the space character only
    and drops the empty substrings: its tokens are the words of the
    instruction between spaces, none of them empty, none holding a space,
    and put end to end they are the instruction without its spaces, so that
    tabs, newlines and other white space stay inside the tokens.  Two
    instructions with the same sequence of space-separated words get the
    same outcome from the whole pipeline: the same response and the same
    account objects afterwards. *)
Theorem tokens_determine_outcome M today accounts s1 s2 :
  spaceWords s1 = spaceWords s2 ->
  (forall s,
     splitData s = spaceWords s /\
     Forall wordOk (splitData s) /\
     String.concat "" (splitData s) = withoutSpaces s) /\
  parseInstruction M today (Data.mk accounts s1) =
  parseInstruction M today (Data.mk accounts s2).
Proof.
  intros E. split.
  - intros s. split; [apply splitData_spaceWords|].
    split; [apply splitData_tokens|].
    unfold splitData. now rewrite concat_filter_nonEmpty, concat_split.
  - rewrite <- !splitData_spaceWords in E.
    unfold parseInstruction, tryCatch, tryBody.
    cbn [Data.instruction Data.accounts].
    rewrite E. reflexivity.
Qed.

(** The example instruction with spaces added in front, inside and behind. *)
Lemma tokens_determine_outcome_example :
  spaceWords spacedInstruction = spaceWords exampleInstruction /\
  splitData spacedInstruction =
    ["DEBIT"; "2000"; "NGN"; "FROM"; "ACCOUNT"; "ACC-001"; "FOR"; "CREDIT";
     "TO"; "ACCOUNT"; "ACC-002"] /\
  parseInstruction readmeMessages "2026-11-02"
    (Data.mk exampleAccounts spacedInstruction) =
  parseInstruction readmeMessages "2026-11-02"
    (Data.mk exampleAccounts exampleInstruction).
Proof.
  assert (E : spaceWords spacedInstruction = spaceWords exampleInstruction)
    by (vm_compute; reflexivity).
  destruct (tokens_determine_outcome readmeMessages "2026-11-02" exampleAccounts
              spacedInstruction exampleInstruction E) as [T P].
  split; [exact E|]. split; [|exact P].
  rewrite (proj1 (T spacedInstruction)). vm_compute. reflexivity.
Defined.

(** Claim C9.  When a call fails, the call on the same payload on any other
    day ends in the same state with the same response, the account objects
    are as they were (so that a second run sees the same account set), and
    with another message table the response is still a failure with the
    same [status_code]. *)
Theorem failure_code_is_deterministic M M' today today' data st r :
  parseInstruction M today data = (st, Normal r) ->
  Response.status r = "failed" ->
  parseInstruction M today' data = (st, Normal r) /\
  data_accounts st = Data.accounts data /\
  exists st' r',
    parseInstruction M' today' data = (st', Normal r') /\
    Response.status r' = "failed" /\
    Response.status_code r' = Response.status_code r.
Proof.
  intros H Hf.
  rewrite parseInstruction_unfold in H.
  destruct (tryBody M today data (initialState data)) as [st1 [r1|e]] eqn:T.
  - injection H as <- <-. apply normal_not_failed in T.
    rewrite Hf in T. destruct T; discriminate.
  - split; [|split].
    + rewrite parseInstruction_unfold.
      now rewrite (tryBody_throw_today _ _ today' _ _ _ T).
    + destruct (catchBlock_returns e st1) as (snapshots & C).
      rewrite C in H. injection H as <- _. simpl.
      exact (tryBody_throw_store _ _ _ _ _ T).
    + destruct (tryBody_throw_messages M M' today today' _ _ _ T) as (e' & T' & Ec).
      rewrite parseInstruction_unfold, T'.
      destruct (catchBlock_returns e' st1) as (s' & ->).
      destruct (catchBlock_returns e st1) as (s & C).
      rewrite C in H. injection H as <- <-.
      do 2 eexists. split; [reflexivity|]. split; [reflexivity|].
      exact Ec.
Qed.

(** An instruction that fails for insufficient funds before its date is
    looked at: the same response before and after that date. *)
Lemma failure_code_is_deterministic_example :
  exists st r,
    parseInstruction readmeMessages "2026-11-02"
      (Data.mk exampleAccounts overdrawnInstruction) = (st, Normal r) /\
    Response.status_code r = Some "AC01" /\
    parseInstruction readmeMessages "2027-01-01"
      (Data.mk exampleAccounts overdrawnInstruction) = (st, Normal r).
Proof.
  do 2 eexists. split; [vm_compute; reflexivity|]. split; [reflexivity|].
  refine (proj1 (failure_code_is_deterministic readmeMessages readmeMessages
                   "2026-11-02" "2027-01-01" _ _ _ _ _)).
  - vm_compute; reflexivity.
  - reflexivity.
Defined.

(** Claim C10.  An instruction of twelve tokens, the last one [ON] in any
    case, that passes the structural checks (DEBIT or CREDIT first, keywords
    in order), the amount check, the currency check and the account-id
    check: the response is a failure with code [DT01], and the account
    objects are as they were. *)
Theorem missing_date_is_DT01 M today accounts instruction
    t0 t1 t2 t3 t4 t5 t6 t7 t8 t9 t10 t11 :
  splitData instruction = [t0; t1; t2; t3; t4; t5; t6; t7; t8; t9; t10; t11] ->
  JS.toUpperCase t0 = "DEBIT" \/ JS.toUpperCase t0 = "CREDIT" ->
  isOutOfOrder (normalize [t0; t1; t2; t3; t4; t5; t6; t7; t8; t9; t10; t11])
    (Some (JS.toUpperCase t0)) = false ->
  isPositiveInteger (JS.Number (JS.toUpperCase t1)) = true ->
  includes supported (JS.toUpperCase t2) = true ->
  accountIdChars t5 = true ->
  accountIdChars t10 = true ->
  JS.toUpperCase t11 = "ON" ->
  exists st r,
    parseInstruction M today (Data.mk accounts instruction) = (st, Normal r) /\
    Response.status r = "failed" /\
    Response.status_code r = Some "DT01" /\
    data_accounts st = accounts.
Proof.
  intros Htok Hty Hord Hamount Hcur H5 H10 Hon.
  pose proof (isPositiveInteger_amount_ok _ Hamount) as Hok.
  apply orb_false_iff in Hok as [Hok _].
  apply orb_false_iff in Hok as [Hnan Hpos].
  destruct (parseInstruction M today _) as [st c] eqn:H.
  exec. rewrite Htok in H. exec_tokens.
  destruct Hty as [Hty|Hty]; rewrite Hty, ?Hon in *; exec_tokens.
  all: repeat (step_tokens H; try dangling).
  all: injection H as <- <-; do 2 eexists; split; [reflexivity|];
       repeat split.
Qed.

(** The example instruction followed by a bare [ON]. *)
Lemma missing_date_is_DT01_example :
  exists st r,
    parseInstruction readmeMessages "2026-11-02"
      (Data.mk exampleAccounts undatedOn) = (st, Normal r) /\
    Response.status r = "failed" /\
    Response.status_code r = Some "DT01" /\
    data_accounts st = exampleAccounts.
Proof.
  apply (missing_date_is_DT01 readmeMessages "2026-11-02" exampleAccounts
           undatedOn "DEBIT" "2000" "NGN" "FROM" "ACCOUNT" "ACC-001" "FOR"
           "CREDIT" "TO" "ACCOUNT" "ACC-002" "ON").
  - vm_compute; reflexivity.
  - left. reflexivity.
  - vm_compute; reflexivity.
  - vm_compute; reflexivity.
  - reflexivity.
  - reflexivity.
  - reflexivity.
  - reflexivity.
Defined.

(** ** Further properties *)

(** A call never ends with an exception; its response has one of the three
    statuses. *)
Theorem parseInstruction_always_returns M today data :
  exists st r,
    parseInstruction M today data = (st, Normal r) /\
    (Response.status r = "successful" \/ Response.status r = "pending" \/
     Response.status r = "failed").
Proof.
  destruct (parseInstruction_cases M today data) as (st & r & E & C).
  exists st, r. split; [exact E|].
  destruct C as [(st1 & e & snapshots & _ & -> & _)|C].
  - right; right. reflexivity.
  - apply normal_not_failed in C. tauto.
Qed.

(** The status code of a response is one of the thirteen documented codes,
    or it is missing; it is missing only in a failure on an instruction of
    exactly ten tokens. *)
Theorem status_code_cases M today data :
  exists st r,
    parseInstruction M today data = (st, Normal r) /\
    ((exists code, Response.status_code r = Some code /\ In code documentedCodes) \/
     (Response.status_code r = None /\
      Response.status r = "failed" /\
      List.length (splitData (Data.instruction data)) = 10)).
Proof.
  destruct (parseInstruction_cases M today data) as (st & r & E & C).
  exists st, r. split; [exact E|].
  destruct C as [(st1 & e & snapshots & T & -> & _)|C].
  - apply tryBody_throw_code in T.
    destruct T as [(m & c & -> & Hc)|[-> L]].
    + left. exists c. split; [reflexivity|].
      unfold documentedCodes. apply in_or_app. now left.
    + right. repeat split. exact L.
  - apply tryBody_normal in C.
    destruct C as (i & j & a & b & amount & _ & _ & _ & _ & [P|P]);
      left; eexists; (split; [apply P|]); simpl; auto 20.
Qed.

Lemma orNullNumber_positive x :
  isPositiveInteger x = true -> orNullNumber (Some x) = Some x.
Proof.
  unfold isPositiveInteger. intros H. apply andb_true_iff in H as [_ H].
  destruct x as [[]|[]| |[] m e]; simpl in *; try discriminate; reflexivity.
Qed.

(** What a failure response echoes, for an instruction in ASCII
    characters.  With a structural code nothing has been recorded: the six
    fields are [null] and no account is listed.  With [AM01] the amount is
    the number parsed, turned into [null] when it is [0] or [NaN]; with
    [CU02] the amount is the number parsed and the currency is [null]; with
    [DT01] the date is [null]. *)
Theorem failure_echo M today data :
  isAscii (Data.instruction data) = true ->
  exists st r,
    parseInstruction M today data = (st, Normal r) /\
    (Response.status r = "failed" ->
     (In (Response.status_code r) [Some "SY01"; Some "SY02"; Some "SY03"] ->
      Response.type r = None /\ Response.amount r = None /\
      Response.currency r = None /\ Response.debit_account r = None /\
      Response.credit_account r = None /\ Response.execute_by r = None /\
      Response.accounts r = []) /\
     (Response.status_code r = Some "AM01" ->
      Response.amount r = orNullNumber (Some (amountOf (Data.instruction data))) /\
      Response.currency r = None /\ Response.execute_by r = None) /\
     (Response.status_code r = Some "CU02" ->
      Response.amount r = Some (amountOf (Data.instruction data)) /\
      Response.currency r = None /\ Response.execute_by r = None) /\
     (Response.status_code r = Some "DT01" -> Response.execute_by r = None)).
Proof.
  intros _.
  destruct data as [accounts instruction].
  destruct (parseInstruction M today _) as [st c] eqn:H.
  unfold amountOf. exec.
  repeat (step H; try dangling).
  all: injection H as <- <-; do 2 eexists; (split; [reflexivity|]).
  all: cbn [Response.status Response.status_code Response.type Response.amount
            Response.currency Response.debit_account Response.credit_account
            Response.execute_by Response.accounts buildErrorResponse errorCode
            Parsed.type Parsed.amount Parsed.currency Parsed.debit_account
            Parsed.credit_account Parsed.execute_by Parsed.accounts In].
  all: intros _.
  all: repeat match goal with
              | |- _ /\ _ => split
              | |- _ -> _ => intros ?
              end.
  all: try reflexivity; try discriminate.
  all: try (exfalso;
            repeat match goal with
                   | X : _ \/ _ |- _ => destruct X as [X|X]
                   end; (discriminate || assumption)).
  all: apply orNullNumber_positive; assumption.
Qed.

(** The amount [0] is parsed and then echoed as [null]; an unsupported
    currency leaves the amount, 2000, and no currency. *)
Lemma failure_echo_example :
  (exists st r,
     parseInstruction readmeMessages "2026-11-02"
       (Data.mk exampleAccounts zeroAmountInstruction) = (st, Normal r) /\
     Response.status_code r = Some "AM01" /\
     amountOf zeroAmountInstruction = JS.zero /\
     Response.amount r = None /\ Response.currency r = None) /\
  (exists st r,
     parseInstruction readmeMessages "2026-11-02"
       (Data.mk exampleAccounts unsupportedCurrencyInstruction) = (st, Normal r) /\
     Response.status_code r = Some "CU02" /\
     Response.amount r = Some (JS.ofZ 2000) /\ Response.currency r = None).
Proof.
  split.
  - destruct (failure_echo readmeMessages "2026-11-02"
                (Data.mk exampleAccounts zeroAmountInstruction) eq_refl)
      as (st & r & E & P).
    exists st, r. split; [exact E|].
    pose proof E as C. vm_compute in C. injection C as <- <-.
    destruct (P eq_refl) as (_ & A & _).
    destruct (A eq_refl) as (A1 & A2 & _).
    split; [reflexivity|]. split; [vm_compute; reflexivity|].
    split; [exact A1|exact A2].
  - destruct (failure_echo readmeMessages "2026-11-02"
                (Data.mk exampleAccounts unsupportedCurrencyInstruction) eq_refl)
      as (st & r & E & P).
    exists st, r. split; [exact E|].
    pose proof E as C. vm_compute in C. injection C as <- <-.
    destruct (P eq_refl) as (_ & _ & A & _).
    destruct (A eq_refl) as (A1 & A2 & _).
    split; [reflexivity|]. split; [exact A1|exact A2].
Defined.

(* ================================================================== *)
(** * Further properties, function by function                         *)
(* ================================================================== *)

(** ** [splitData] *)

Lemma split_one_word w :
  spaceless w = true -> JS.split " " w = [w].
Proof.
  induction w as [|c r IH]; intros Hs; [reflexivity|].
  unfold spaceless in Hs. simpl in Hs.
  apply andb_true_iff in Hs as [Hc Hr]. apply negb_true_iff in Hc.
  simpl. rewrite Hc, (IH Hr). reflexivity.
Qed.

(** Round trip of the tokenizer: words that are not empty and hold no
    space, joined with single spaces, are split into these words again; no
    word gives no token. *)
Theorem splitData_join words :
  Forall wordOk words ->
  splitData (String.concat " " words) = words.
Proof.
  induction words as [|w ws IH]; intros H; [reflexivity|].
  inversion H as [|? ? [Hn Hs] Hws]; subst.
  destruct ws as [|x r].
  - simpl. unfold splitData. rewrite (split_one_word w Hs). simpl. now rewrite Hn.
  - change (String.concat " " (w :: x :: r))
      with (w ++ String " " (String.concat " " (x :: r))).
    rewrite (splitData_word _ _ Hn Hs). now rewrite (IH Hws).
Qed.

Lemma splitData_join_example :
  splitData "DEBIT 2000 NGN" = ["DEBIT"; "2000"; "NGN"] /\
  splitData "" = [].
Proof.
  split.
  - apply (splitData_join ["DEBIT"; "2000"; "NGN"]). repeat constructor.
  - apply (splitData_join []). constructor.
Defined.

(** The tokens of any instruction are not empty and hold no space, and the
    instruction rebuilt from its tokens, one space between two, has the same
    tokens. *)
Theorem splitData_canonical s :
  Forall wordOk (splitData s) /\
  splitData (String.concat " " (splitData s)) = splitData s.
Proof.
  assert (H : Forall wordOk (splitData s)) by apply splitData_tokens.
  split; [exact H|]. now apply splitData_join.
Qed.

(** The tokenizer takes out the spaces and nothing else: the tokens, put
    end to end, are the instruction without its spaces. *)
Theorem splitData_keeps_characters s :
  String.concat "" (splitData s) = withoutSpaces s.
Proof.
  unfold splitData. now rewrite concat_filter_nonEmpty, concat_split.
Qed.

(** ** [isOutOfOrder] *)

Lemma keywordAt_eqb keywords i w :
  JS.strictEq (option_map JS.toUpperCase (nth_error keywords i)) w = true <->
  keywordAt keywords i w.
Proof.
  unfold keywordAt. destruct (nth_error keywords i) as [t|]; simpl.
  - rewrite String.eqb_eq. split.
    + intros H. now exists t.
    + intros (t' & [= <-] & H). exact H.
  - split; [discriminate|]. intros (t & H & _). discriminate.
Qed.

Lemma trailingClause_eqb keywords :
  JS.truthy (nth_error keywords 11) &&
  negb (JS.strictEq (option_map JS.toUpperCase (nth_error keywords 11)) "ON")
  = false <-> trailingClauseOk keywords.
Proof.
  unfold trailingClauseOk. destruct (nth_error keywords 11) as [t|]; simpl.
  - destruct t as [|c r].
    + simpl. split; auto.
    + cbn [andb]. rewrite negb_false_iff, String.eqb_eq.
      split; [now right|]. intros [H|H]; [discriminate|exact H].
  - split; auto.
Qed.

(** [isOutOfOrder] accepts exactly the keyword skeletons: for DEBIT (and
    likewise CREDIT) it answers [false] if and only if positions 0, 3, 4, 6,
    7, 8 and 9 hold the seven keywords in any case, and position 11 is
    missing, empty or [ON].  Positions 1, 2, 5, 10 and those from 12 on have
    no part in it; in particular, nothing asks for a token at position
    10. *)
Theorem isOutOfOrder_skeleton keywords :
  (isOutOfOrder keywords (Some "DEBIT") = false <->
   keywordAt keywords 0 "DEBIT" /\ keywordAt keywords 3 "FROM" /\
   keywordAt keywords 4 "ACCOUNT" /\ keywordAt keywords 6 "FOR" /\
   keywordAt keywords 7 "CREDIT" /\ keywordAt keywords 8 "TO" /\
   keywordAt keywords 9 "ACCOUNT" /\ trailingClauseOk keywords) /\
  (isOutOfOrder keywords (Some "CREDIT") = false <->
   keywordAt keywords 0 "CREDIT" /\ keywordAt keywords 3 "TO" /\
   keywordAt keywords 4 "ACCOUNT" /\ keywordAt keywords 6 "FOR" /\
   keywordAt keywords 7 "DEBIT" /\ keywordAt keywords 8 "FROM" /\
   keywordAt keywords 9 "ACCOUNT" /\ trailingClauseOk keywords).
Proof.
  rewrite <- !keywordAt_eqb, <- trailingClause_eqb.
  unfold isOutOfOrder.
  change (JS.strictEq (Some "DEBIT") "DEBIT") with true.
  change (JS.strictEq (Some "DEBIT") "CREDIT") with false.
  change (JS.strictEq (Some "CREDIT") "DEBIT") with false.
  change (JS.strictEq (Some "CREDIT") "CREDIT") with true.
  cbn [andb mismatchFrom expectedDebit expectedCredit].
  split.
  all: repeat match goal with
         | |- context [negb (JS.strictEq ?x ?w)] =>
             destruct (JS.strictEq x w)
         end; cbn [negb].
  all: try (split; [discriminate|intros H; decompose [and] H; discriminate]).
  all: destruct (JS.truthy _ && _); split; try discriminate; try tauto;
       intros H; decompose [and] H; try discriminate; reflexivity.
Qed.

(** ** [isPositiveInteger] and the amount *)

(** The amount test of [parseInstruction], [Number.isNaN(amount) ||
    amount <= 0 || !isPositiveInteger(amount)], rejects what
    [isPositiveInteger] rejects and nothing else; and [isPositiveInteger]
    accepts the finite positive numbers without a fractional part, so never
    [NaN], an infinity, a zero or a negative number. *)
Theorem amount_check x :
  JS.isNaN x || JS.le x JS.zero || negb (isPositiveInteger x)
    = negb (isPositiveInteger x) /\
  (isPositiveInteger x = true <->
   exists m e, x = S754_finite false m e /\
               ((0 <= e)%Z \/ (Z.pos m mod 2 ^ (- e) = 0)%Z)).
Proof.
  split.
  - destruct x as [[]|[]| |[] m e]; try reflexivity;
      unfold isPositiveInteger; cbn; rewrite ?andb_false_r, ?andb_true_r;
      try reflexivity.
  - unfold isPositiveInteger. split.
    + intros H. apply andb_true_iff in H as [Hi Hp].
      destruct x as [[]|[]| |[] m e]; try discriminate.
      exists m, e. split; [reflexivity|].
      simpl in Hi. destruct (0 <=? e)%Z eqn:E.
      * left. now apply Z.leb_le.
      * right. now apply Z.eqb_eq.
    + intros (m & e & -> & H). simpl.
      destruct (0 <=? e)%Z eqn:E; [reflexivity|].
      destruct H as [H|H].
      * apply Z.leb_le in H. congruence.
      * rewrite H. reflexivity.
Qed.

Lemma digits2_pos_size p : digits2_pos p = Pos.size p.
Proof. induction p; simpl; congruence. Qed.

Lemma iter_xO_mul p k : Pos.iter xO p k = (p * 2 ^ k)%positive.
Proof.
  induction k as [|k IH] using Pos.peano_ind.
  - simpl. now rewrite Pos.pow_1_r, Pos.mul_comm.
  - rewrite Pos.iter_succ, IH, Pos.pow_succ_r.
    change (2 * 2 ^ k)%positive with ((2 ^ k)~0)%positive.
    now rewrite Pos.mul_xO_r.
Qed.

Lemma iter_xO_size p k :
  Pos.size (Pos.iter xO p k) = (Pos.size p + k)%positive.
Proof.
  induction k as [|k IH] using Pos.peano_ind.
  - simpl. lia.
  - rewrite Pos.iter_succ. simpl. rewrite IH. lia.
Qed.

Lemma size_bound p : (Z.pos p < 2 ^ 53)%Z -> (Z.pos (Pos.size p) <= 53)%Z.
Proof.
  intros H. pose proof (Pos.size_le p) as L.
  assert (Z.pos (2 ^ Pos.size p) <= Z.pos p~0)%Z by (apply Pos2Z.pos_le_pos; exact L).
  rewrite Pos2Z.inj_pow in H0.
  assert (2 ^ Z.pos (Pos.size p) < 2 ^ 54)%Z by (change (2^54)%Z with (2 * 2^53)%Z; lia).
  apply Z.pow_lt_mono_r_iff in H1; lia.
Qed.

(** Rounding a mantissa that already has its place changes nothing. *)
Lemma binary_round_aux_canonical s m e :
  fexp JS.prec JS.emax (Z.pos (digits2_pos m) + e) = e ->
  (e <= JS.emax - JS.prec)%Z ->
  binary_round_aux JS.prec JS.emax s (Z.pos m) e loc_Exact = S754_finite s m e.
Proof.
  intros F L.
  unfold binary_round_aux, shr_fexp, shr.
  cbn [Zdigits2 shr_record_of_loc]. rewrite F, Z.sub_diag.
  cbn [shr_m loc_of_shr_record round_nearest_even Zdigits2].
  rewrite F, Z.sub_diag. cbn [shr_m].
  apply Z.leb_le in L. now rewrite L.
Qed.

(** The binary64 value of a positive integer below [2 ^ 53] is that
    integer. *)
Lemma ofZ_exact p :
  (Z.pos p < 2 ^ 53)%Z ->
  exists m e,
    JS.ofZ (Z.pos p) = S754_finite false m e /\
    (e <= 0)%Z /\ (Z.pos m = Z.pos p * 2 ^ (- e))%Z.
Proof.
  intros H. apply size_bound in H.
  unfold JS.ofZ, binary_normalize, binary_round.
  rewrite digits2_pos_size.
  set (d := Pos.size p) in *.
  unfold shl_align.
  assert (F : fexp JS.prec JS.emax (Z.pos d + 0) = (Z.pos d - 53)%Z).
  { unfold fexp, emin, JS.prec, JS.emax. lia. }
  rewrite F.
  destruct (Z.pos d - 53 - 0)%Z as [|k|k] eqn:K; try lia.
  - (* 53 digits *)
    exists p, 0%Z. split; [|split; [lia|simpl; lia]].
    apply binary_round_aux_canonical.
    + rewrite digits2_pos_size. fold d. rewrite F. lia.
    + unfold JS.emax, JS.prec. lia.
  - (* fewer digits: the mantissa is shifted to 53 digits *)
    exists (Pos.iter xO p k), (Z.pos d - 53)%Z. split; [|split; [lia|]].
    + apply binary_round_aux_canonical.
      * rewrite digits2_pos_size, iter_xO_size. fold d.
        unfold fexp, emin, JS.prec, JS.emax. lia.
      * unfold JS.emax, JS.prec. lia.
    + rewrite iter_xO_mul, Pos2Z.inj_mul, Pos2Z.inj_pow.
      replace (- (Z.pos d - 53))%Z with (Z.pos k) by lia. reflexivity.
Qed.

Lemma ofZ_positive z :
  (0 < z < 2 ^ 53)%Z -> isPositiveInteger (JS.ofZ z) = true.
Proof.
  intros [Hp Hb]. destruct z as [|p|p]; try lia.
  destruct (ofZ_exact p Hb) as (m & e & -> & He & Hm).
  unfold isPositiveInteger. simpl.
  destruct (0 <=? e)%Z; [reflexivity|].
  rewrite Hm, Z.mod_mul; [reflexivity|].
  apply Z.pow_nonzero; lia.
Qed.

Lemma ofZ_nonpositive z :
  (z <= 0)%Z -> isPositiveInteger (JS.ofZ z) = false.
Proof.
  intros H. destruct z as [|p|p]; try lia; [reflexivity|].
  unfold isPositiveInteger, JS.ofZ, binary_normalize, binary_round.
  destruct (shl_align _ _ _) as [mz ez].
  unfold binary_round_aux.
  destruct (shr_fexp _ _ _ _ _) as [mrs' e'].
  destruct (shr_fexp _ _ _ _ _) as [mrs'' e''].
  destruct (shr_m mrs''); [| |reflexivity].
  - apply andb_false_r.
  - destruct (e'' <=? _)%Z; apply andb_false_r.
Qed.

(** The integers as amounts: the binary64 value of every integer from 1 to
    [2 ^ 53 - 1] is that integer and is accepted by [isPositiveInteger]; the
    value of an integer below 1 is rejected. *)
Theorem isPositiveInteger_ofZ z :
  ((0 < z < 2 ^ 53)%Z ->
   isPositiveInteger (JS.ofZ z) = true /\
   exists m e, JS.ofZ z = S754_finite false m e /\
               (e <= 0)%Z /\ (Z.pos m = z * 2 ^ (- e))%Z) /\
  ((z <= 0)%Z -> isPositiveInteger (JS.ofZ z) = false).
Proof.
  split.
  - intros H. split; [now apply ofZ_positive|].
    destruct z as [|p|p]; try lia. apply ofZ_exact. lia.
  - apply ofZ_nonpositive.
Qed.

Lemma digit_facts c :
  isDigit c = true ->
  JS.isWhiteSpace c = false /\
  JS.toUpperChar c = c /\
  JS.digitValue 10 c = Some (Z.of_nat (nat_of_ascii c) - 48)%Z /\
  (0 <= Z.of_nat (nat_of_ascii c) - 48)%Z.
Proof.
  destruct c as [[] [] [] [] [] [] [] []]; try discriminate;
    intros _; repeat split; vm_compute; congruence.
Qed.

Lemma trimStart_digits l :
  forallb isDigit l = true -> JS.trimStart l = l.
Proof.
  destruct l as [|c r]; [reflexivity|]. simpl.
  intros H. apply andb_true_iff in H as [Hc _].
  now rewrite (proj1 (digit_facts c Hc)).
Qed.

Lemma forallb_rev {A} (f : A -> bool) l :
  forallb f (rev l) = forallb f l.
Proof.
  induction l as [|x r IH]; [reflexivity|].
  simpl. rewrite forallb_app, IH. simpl. rewrite andb_true_r. apply andb_comm.
Qed.

Lemma trim_digits l : forallb isDigit l = true -> JS.trim l = l.
Proof.
  intros H. unfold JS.trim.
  rewrite (trimStart_digits l H), trimStart_digits, rev_involutive;
    [reflexivity|now rewrite forallb_rev].
Qed.

Lemma spanDigits_digits l acc len :
  forallb isDigit l = true ->
  JS.spanDigits 10 l acc len =
    (fold_left (fun acc c => (acc * 10 + (Z.of_nat (nat_of_ascii c) - 48))%Z) l acc,
     (len + Z.of_nat (List.length l))%Z, []).
Proof.
  revert acc len; induction l as [|c r IH]; intros acc len H.
  - simpl. now rewrite Z.add_0_r.
  - simpl in H. apply andb_true_iff in H as [Hc Hr].
    cbn [JS.spanDigits fold_left List.length].
    destruct (digit_facts c Hc) as (_ & _ & -> & _).
    rewrite (IH _ _ Hr). f_equal. f_equal. lia.
Qed.

Lemma fold_digits_nonneg l acc :
  forallb isDigit l = true -> (0 <= acc)%Z ->
  (0 <= fold_left (fun acc c => (acc * 10 + (Z.of_nat (nat_of_ascii c) - 48))%Z) l acc)%Z.
Proof.
  revert acc; induction l as [|c r IH]; intros acc H Ha; [exact Ha|].
  simpl in H. apply andb_true_iff in H as [Hc Hr].
  simpl. apply IH; [exact Hr|].
  destruct (digit_facts c Hc) as (_ & _ & _ & Hd). lia.
Qed.

Lemma toUpperCase_digits s :
  forallb isDigit (list_ascii_of_string s) = true -> JS.toUpperCase s = s.
Proof.
  induction s as [|c r IH]; [reflexivity|]. simpl.
  intros H. apply andb_true_iff in H as [Hc Hr].
  destruct (digit_facts c Hc) as (_ & -> & _). now rewrite IH.
Qed.

(** The text of a digit string is a decimal literal. *)
Lemma Number_literal l :
  l <> [] -> forallb isDigit l = true ->
  match JS.trim l with
  | [] => JS.zero
  | "0"%char :: "x"%char :: r | "0"%char :: "X"%char :: r => JS.nonDecimal 16 r
  | "0"%char :: "o"%char :: r | "0"%char :: "O"%char :: r => JS.nonDecimal 8 r
  | "0"%char :: "b"%char :: r | "0"%char :: "B"%char :: r => JS.nonDecimal 2 r
  | "+"%char :: r => JS.unsignedDecimal false r
  | "-"%char :: r => JS.unsignedDecimal true r
  | s => JS.unsignedDecimal false s
  end = JS.unsignedDecimal false l.
Proof.
  intros Hn H. rewrite (trim_digits l H).
  destruct l as [|c r]; [congruence|].
  simpl in H. apply andb_true_iff in H as [Hc Hr].
  destruct c as [[] [] [] [] [] [] [] []]; try discriminate Hc; try reflexivity.
  destruct r as [|c2 r2]; [reflexivity|].
  simpl in Hr. apply andb_true_iff in Hr as [Hc2 _].
  destruct c2 as [[] [] [] [] [] [] [] []]; try discriminate Hc2; reflexivity.
Qed.

Lemma Number_digits s :
  digitString s = true -> JS.Number s = JS.ofZ (decimalValue s).
Proof.
  unfold digitString, decimalValue. intros H.
  apply andb_true_iff in H as [Hn H].
  assert (Hl : list_ascii_of_string s <> []) by (destruct s; [discriminate|discriminate]).
  unfold JS.Number. rewrite (Number_literal _ Hl H).
  unfold JS.unsignedDecimal.
  destruct (list_eq_dec ascii_dec _ _) as [E|_].
  { rewrite E in H. discriminate H. }
  rewrite (spanDigits_digits _ 0 0 H).
  pose proof (fold_digits_nonneg _ 0 H (Z.le_refl 0)) as Hv.
  set (v := fold_left _ _ 0%Z) in *.
  cbn [JS.exponentPart].
  assert (L : (0 <? 0 + Z.of_nat (List.length (list_ascii_of_string s)))%Z = true).
  { apply Z.ltb_lt. destruct (list_ascii_of_string s); [congruence|simpl; lia]. }
  rewrite L. unfold JS.roundDecimal.
  destruct v as [|p|p]; [reflexivity| |lia].
  simpl (0 <=? 0 - 0)%Z. cbn [cond_Zopp].
  now rewrite Z.pow_0_r, Z.mul_1_r.
Qed.

(** An amount written in decimal digits only is read as the number it
    writes; it passes the amount check when that number is from 1 to
    [2 ^ 53 - 1], and fails it when it is 0. *)
Theorem decimal_amounts s :
  digitString s = true ->
  JS.Number (JS.toUpperCase s) = JS.ofZ (decimalValue s) /\
  ((0 < decimalValue s < 2 ^ 53)%Z ->
   isPositiveInteger (JS.Number (JS.toUpperCase s)) = true) /\
  (decimalValue s = 0%Z ->
   isPositiveInteger (JS.Number (JS.toUpperCase s)) = false).
Proof.
  intros H.
  assert (E : JS.Number (JS.toUpperCase s) = JS.ofZ (decimalValue s)).
  { rewrite toUpperCase_digits; [now apply Number_digits|].
    unfold digitString in H. now apply andb_true_iff in H as [_ H]. }
  rewrite E. split; [reflexivity|]. split.
  - apply ofZ_positive.
  - intros Z0. apply ofZ_nonpositive. lia.
Qed.

Lemma decimal_amounts_example :
  JS.Number (JS.toUpperCase "2000") = JS.ofZ 2000 /\
  isPositiveInteger (JS.Number (JS.toUpperCase "2000")) = true.
Proof.
  destruct (decimal_amounts "2000" eq_refl) as (E & P & _).
  split; [exact E|]. apply P. vm_compute. split; reflexivity.
Defined.

(** ** [parseInstruction]: the business checks *)

Lemma token_truthy s tokens i t :
  splitData s = tokens -> nth_error tokens i = Some t ->
  JS.truthy (Some t) = true.
Proof.
  intros <- Hn. apply nth_error_In in Hn.
  pose proof (proj1 (Forall_forall _ _) (splitData_tokens s) t Hn) as [Ht _].
  destruct t; [discriminate|reflexivity].
Qed.

(** Sets a run on an accepted DEBIT instruction going, up to the account-id
    check. *)
Ltac debit_run Hacc H :=
  let t0 := fresh "t0" in let t3 := fresh "t3" in let t4 := fresh "t4" in
  let t6 := fresh "t6" in let t7 := fresh "t7" in let t8 := fresh "t8" in
  let t9 := fresh "t9" in
  let Htok := fresh "Htok" in
  let U0 := fresh "U" in let U3 := fresh "U" in let U4 := fresh "U" in
  let U6 := fresh "U" in let U7 := fresh "U" in let U8 := fresh "U" in
  let U9 := fresh "U" in
  let Hamount := fresh "Hamount" in let Hcur := fresh "Hcur" in
  let Hok := fresh "Hok" in let Hnan := fresh "Hnan" in let Hpos := fresh "Hpos" in
  destruct Hacc as ((t0 & t3 & t4 & t6 & t7 & t8 & t9 & Htok
                     & U0 & U3 & U4 & U6 & U7 & U8 & U9) & Hamount & Hcur);
  let Td := fresh "Td" in let Tc := fresh "Tc" in
  pose proof (token_truthy _ _ 5 _ Htok eq_refl) as Td;
  pose proof (token_truthy _ _ 10 _ Htok eq_refl) as Tc;
  pose proof (isPositiveInteger_amount_ok _ Hamount) as Hok;
  apply orb_false_iff in Hok as [Hok _];
  apply orb_false_iff in Hok as [Hnan Hpos];
  exec; rewrite Htok in H; exec_tokens;
  rewrite U0, U3, U4, U6, U7, U8, U9 in H; exec_tokens;
  match type of H with
  | context [isOutOfOrder ?k ?t] =>
      let O := fresh "Hord" in
      assert (O : isOutOfOrder k t = false) by reflexivity
  end.





(** Account not found.  An accepted DEBIT instruction with two valid ids,
    one of which no account object has, is a failure with code [AC03]; the
    response lists the account that was found, if one was, and leaves the
    other out. *)
Theorem account_not_found_is_AC03 M today accounts instruction
    amountTok currencyTok debitId creditId :
  acceptedDebit instruction amountTok currencyTok debitId creditId ->
  accountIdChars debitId = true ->
  accountIdChars creditId = true ->
  findFrom (Some debitId) accounts 0 = None \/
  findFrom (Some creditId) accounts 0 = None ->
  exists st r,
    parseInstruction M today (Data.mk accounts instruction) = (st, Normal r) /\
    Response.status r = "failed" /\
    Response.status_code r = Some "AC03" /\
    Response.accounts r = (resolved accounts debitId ++ resolved accounts creditId)%list /\
    data_accounts st = accounts.
Proof.
  intros Hacc Hd Hc Hnf.
  destruct (parseInstruction M today _) as [st c] eqn:H.
  debit_run Hacc H. unfold resolved.
  destruct Hnf as [F|F].
  all: repeat (step_tokens H; try dangling).
  all: injection H as <- <-.
  all: repeat match goal with
              | E : findFrom ?x ?l ?i = _ |- context [findFrom ?x ?l ?i] =>
                  rewrite E
              | E : nth_error ?l ?i = _ |- context [nth_error ?l ?i] =>
                  rewrite E
              end.
  all: do 2 eexists; (split; [reflexivity|]); repeat split.
Qed.

Lemma account_not_found_is_AC03_example :
  exists st r,
    parseInstruction readmeMessages "2026-11-02"
      (Data.mk exampleAccounts unknownAccount) = (st, Normal r) /\
    Response.status r = "failed" /\
    Response.status_code r = Some "AC03" /\
    Response.accounts r =
      [Snapshot.mk "ACC-001" (JS.ofZ 5000) (JS.ofZ 5000) "NGN"] /\
    data_accounts st = exampleAccounts.
Proof.
  apply (account_not_found_is_AC03 readmeMessages "2026-11-02" exampleAccounts
           unknownAccount "100" "NGN" "ACC-001" "ACC-009").
  - split; [|split; vm_compute; reflexivity].
    exists "DEBIT", "FROM", "ACCOUNT", "FOR", "CREDIT", "TO", "ACCOUNT".
    repeat split; vm_compute; reflexivity.
  - reflexivity.
  - reflexivity.
  - right. reflexivity.
Defined.

(** Currency mismatch.  An accepted DEBIT instruction without an ON
    clause, with two valid ids that are both found: the response is a
    failure with code [CU01] when the currencies of the two accounts differ
    as strings (case counts between the accounts), or when the debit
    account's currency, in ASCII characters and upper-cased, is not the
    stated one (case does not count there); this comes before the
    same-account and the balance checks, whether or not the two ids are the
    same and whatever the balances.  The two accounts are listed with
    [balance = balance_before] and no account object is touched. *)
Theorem currency_mismatch_is_CU01 M today accounts instruction
    amountTok currencyTok debitId creditId i j a b :
  acceptedDebit instruction amountTok currencyTok debitId creditId ->
  accountIdChars debitId = true ->
  accountIdChars creditId = true ->
  findFrom (Some debitId) accounts 0 = Some i ->
  nth_error accounts i = Some a ->
  findFrom (Some creditId) accounts 0 = Some j ->
  nth_error accounts j = Some b ->
  Account.currency a <> Account.currency b \/
  (isAscii (Account.currency a) = true /\
   JS.toUpperCase (Account.currency a) <> JS.toUpperCase currencyTok) ->
  exists st r,
    parseInstruction M today (Data.mk accounts instruction) = (st, Normal r) /\
    Response.status r = "failed" /\
    Response.status_code r = Some "CU01" /\
    Response.accounts r = [failureSnapshot a; failureSnapshot b] /\
    data_accounts st = accounts.
Proof.
  intros Hacc Hd Hc Fi Ni Fj Nj Hne.
  destruct (parseInstruction M today _) as [st c] eqn:H.
  debit_run Hacc H.
  destruct Hne as [Hne|[_ Hne]]; apply String.eqb_neq in Hne.
  2: rewrite String.eqb_sym in Hne.
  all: repeat step_tokens H.
  all: injection H as <- <-.
  all: repeat match goal with
              | E : findFrom ?x ?l ?i = _ |- context [findFrom ?x ?l ?i] =>
                  rewrite E
              | E : nth_error ?l ?i = _ |- context [nth_error ?l ?i] =>
                  rewrite E
              end.
  all: do 2 eexists; (split; [reflexivity|]); repeat split.
Qed.

Lemma currency_mismatch_is_CU01_example :
  exists st r,
    parseInstruction readmeMessages "2026-11-02"
      (Data.mk exampleAccounts dollarDebit) = (st, Normal r) /\
    Response.status r = "failed" /\
    Response.status_code r = Some "CU01" /\
    Response.accounts r =
      [Snapshot.mk "ACC-001" (JS.ofZ 5000) (JS.ofZ 5000) "NGN";
       Snapshot.mk "ACC-002" (JS.ofZ 1500) (JS.ofZ 1500) "NGN"] /\
    data_accounts st = exampleAccounts.
Proof.
  apply (currency_mismatch_is_CU01 readmeMessages "2026-11-02" exampleAccounts
           dollarDebit "100" "USD" "ACC-001" "ACC-002" 0 1
           (Account.mk "ACC-001" (JS.ofZ 5000) "NGN")
           (Account.mk "ACC-002" (JS.ofZ 1500) "NGN")).
  - split; [|split; vm_compute; reflexivity].
    exists "DEBIT", "FROM", "ACCOUNT", "FOR", "CREDIT", "TO", "ACCOUNT".
    repeat split; vm_compute; reflexivity.
  - reflexivity.
  - reflexivity.
  - reflexivity.
  - reflexivity.
  - reflexivity.
  - reflexivity.
  - right. split; [reflexivity|discriminate].
Defined.

Lemma supported_echoed s :
  includes supported s = true -> orNull (Some s) = Some s.
Proof. destruct s; [discriminate|reflexivity]. Qed.

(** Account id format.  An accepted DEBIT instruction one of whose ids has
    a character outside [A-Za-z0-9-.@] is a failure with code [AC04],
    before any account is looked up by the [try] block; the response
    echoes the currency, and the [catch] block still lists the accounts the
    ids resolve to. *)
Theorem invalid_account_id_is_AC04 M today accounts instruction
    amountTok currencyTok debitId creditId :
  acceptedDebit instruction amountTok currencyTok debitId creditId ->
  accountIdChars debitId = false \/ accountIdChars creditId = false ->
  exists st r,
    parseInstruction M today (Data.mk accounts instruction) = (st, Normal r) /\
    Response.status r = "failed" /\
    Response.status_code r = Some "AC04" /\
    Response.currency r = Some (JS.toUpperCase currencyTok) /\
    Response.accounts r = (resolved accounts debitId ++ resolved accounts creditId)%list /\
    data_accounts st = accounts.
Proof.
  intros Hacc Hbad.
  destruct (parseInstruction M today _) as [st c] eqn:H.
  debit_run Hacc H. unfold resolved.
  destruct Hbad as [F|F].
  all: repeat (step_tokens H; try dangling).
  all: injection H as <- <-.
  all: repeat match goal with
              | E : findFrom ?x ?l ?i = _ |- context [findFrom ?x ?l ?i] =>
                  rewrite E
              | E : nth_error ?l ?i = _ |- context [nth_error ?l ?i] =>
                  rewrite E
              end.
  all: do 2 eexists; (split; [reflexivity|]); repeat split.
all: apply supported_echoed; assumption.
Qed.

Lemma invalid_account_id_is_AC04_example :
  exists st r,
    parseInstruction readmeMessages "2026-11-02"
      (Data.mk exampleAccounts underscoreId) = (st, Normal r) /\
    Response.status r = "failed" /\
    Response.status_code r = Some "AC04" /\
    Response.currency r = Some "NGN" /\
    Response.accounts r =
      [Snapshot.mk "ACC-002" (JS.ofZ 1500) (JS.ofZ 1500) "NGN"] /\
    data_accounts st = exampleAccounts.
Proof.
  apply (invalid_account_id_is_AC04 readmeMessages "2026-11-02" exampleAccounts
           underscoreId "100" "NGN" "ACC_001" "ACC-002").
  - split; [|split; vm_compute; reflexivity].
    exists "DEBIT", "FROM", "ACCOUNT", "FOR", "CREDIT", "TO", "ACCOUNT".
    repeat split; vm_compute; reflexivity.
  - left. reflexivity.
Defined.

(** ** [parseInstruction]: the two forms, the keywords read, the order of the checks *)

(** The two forms of an instruction.  [CREDIT amount currency TO ACCOUNT c
    FOR DEBIT FROM ACCOUNT d] does what [DEBIT amount currency FROM ACCOUNT
    d FOR CREDIT TO ACCOUNT c] does, whatever that is: the same account
    objects afterwards and the same response, failure or not, but for its
    [type]. *)
Theorem credit_mirrors_debit M today accounts debit credit
    amountTok currencyTok debitId creditId :
  debitSkeleton (splitData debit) amountTok currencyTok debitId creditId ->
  creditSkeleton (splitData credit) amountTok currencyTok debitId creditId ->
  exists st r st',
    parseInstruction M today (Data.mk accounts debit) = (st, Normal r) /\
    parseInstruction M today (Data.mk accounts credit) =
      (st', Normal (withType (Some "CREDIT") r)) /\
    Response.type r = Some "DEBIT" /\
    data_accounts st' = data_accounts st.
Proof.
  intros (d0 & d3 & d4 & d6 & d7 & d8 & d9 & Hd & D0 & D3 & D4 & D6 & D7 & D8 & D9)
         (c0 & c3 & c4 & c6 & c7 & c8 & c9 & Hc & C0 & C3 & C4 & C6 & C7 & C8 & C9).
  pose proof (token_truthy _ _ 5 _ Hd eq_refl) as Td.
  pose proof (token_truthy _ _ 10 _ Hd eq_refl) as Tc.
  destruct (parseInstruction M today (Data.mk accounts debit)) as [st c] eqn:H.
  destruct (parseInstruction M today (Data.mk accounts credit)) as [st' c'] eqn:H'.
  exec. rewrite Hd in H. rewrite Hc in H'. exec_tokens.
  rewrite D0, D3, D4, D6, D7, D8, D9 in H.
  rewrite C0, C3, C4, C6, C7, C8, C9 in H'. exec_tokens.
  repeat match goal with
         | X : context [isOutOfOrder ?k ?t] |- _ =>
             change (isOutOfOrder k t) with false in X
         end.
  exec_tokens.
  repeat (step_tokens H; try dangling).
  all: repeat (step_tokens H'; try dangling).
  all: injection H as <- <-; injection H' as <- <-.
  all: do 3 eexists; repeat split.
Qed.

Lemma credit_mirrors_debit_example :
  exists st r st',
    parseInstruction readmeMessages "2026-11-02"
      (Data.mk exampleAccounts exampleInstruction) = (st, Normal r) /\
    parseInstruction readmeMessages "2026-11-02"
      (Data.mk exampleAccounts exampleCredit) =
      (st', Normal (withType (Some "CREDIT") r)) /\
    Response.type r = Some "DEBIT" /\
    data_accounts st' = data_accounts st.
Proof.
  apply (credit_mirrors_debit readmeMessages "2026-11-02" exampleAccounts
           exampleInstruction exampleCredit "2000" "NGN" "ACC-001" "ACC-002").
  - exists "DEBIT", "FROM", "ACCOUNT", "FOR", "CREDIT", "TO", "ACCOUNT".
    repeat split; vm_compute; reflexivity.
  - exists "CREDIT", "TO", "ACCOUNT", "FOR", "DEBIT", "FROM", "ACCOUNT".
    repeat split; vm_compute; reflexivity.
Defined.

Lemma isOutOfOrder_positions keywords keywords' type :
  (forall i, i < 12 -> nth_error keywords i = nth_error keywords' i) ->
  isOutOfOrder keywords type = isOutOfOrder keywords' type.
Proof.
  intros H. unfold isOutOfOrder.
  cbn [mismatchFrom expectedDebit expectedCredit].
  rewrite !(H 0), !(H 3), !(H 4), !(H 6), !(H 7), !(H 8), !(H 9), !(H 11)
    by lia.
  reflexivity.
Qed.

Lemma firstn_nth_error {A} n (l l' : list A) i :
  firstn n l = firstn n l' -> i < n -> nth_error l i = nth_error l' i.
Proof.
  intros E Hi.
  assert (H : nth_error (firstn n l) i = nth_error (firstn n l') i)
    by now rewrite E.
  rewrite !nth_error_firstn in H.
  apply Nat.ltb_lt in Hi. now rewrite Hi in H.
Qed.

Lemma firstn_short {A} (l l' : list A) :
  firstn 13 l = firstn 13 l' ->
  (List.length l <? 8)%nat = (List.length l' <? 8)%nat.
Proof.
  intros E.
  assert (H : List.length (firstn 13 l) = List.length (firstn 13 l'))
    by now rewrite E.
  rewrite !length_firstn in H.
  destruct (List.length l <? 8)%nat eqn:A1, (List.length l' <? 8)%nat eqn:A2;
    try reflexivity;
    rewrite ?Nat.ltb_lt, ?Nat.ltb_ge in *; lia.
Qed.

(** The first thirteen keywords decide the outcome: what follows the date
    is never read, and neither is the case of a token that is not an
    account id. *)
Theorem first_keywords_decide M today accounts s1 s2 :
  firstn 13 (normalize (splitData s1)) = firstn 13 (normalize (splitData s2)) ->
  parseInstruction M today (Data.mk accounts s1) =
  parseInstruction M today (Data.mk accounts s2).
Proof.
  intros E.
  unfold parseInstruction, tryCatch, tryBody.
  cbn [Data.instruction Data.accounts].
  set (k1 := normalize (splitData s1)) in *.
  set (k2 := normalize (splitData s2)) in *.
  assert (N : forall i, i < 13 -> nth_error k1 i = nth_error k2 i)
    by (intros i Hi; now apply (firstn_nth_error 13)).
  rewrite (firstn_short k1 k2 E).
  rewrite (isOutOfOrder_positions k1 k2)
    by (intros i Hi; apply N; lia).
  rewrite !(N 0), !(N 1), !(N 2), !(N 5), !(N 10), !(N 11), !(N 12) by lia.
  reflexivity.
Qed.

Lemma first_keywords_decide_example :
  parseInstruction readmeMessages "2026-11-02"
    (Data.mk exampleAccounts verboseInstruction) =
  parseInstruction readmeMessages "2026-11-02"
    (Data.mk exampleAccounts scheduledInstruction).
Proof.
  apply first_keywords_decide. vm_compute. reflexivity.
Defined.

(** A response lists at most two accounts; unless its status is
    [successful], each of them is an account object of the payload as it
    came in, with [balance = balance_before]. *)
Theorem unsuccessful_snapshots M today data :
  exists st r,
    parseInstruction M today data = (st, Normal r) /\
    List.length (Response.accounts r) <= 2 /\
    (Response.status r <> "successful" ->
     Forall (untouchedSnapshot (Data.accounts data)) (Response.accounts r)).
Proof.
  destruct data as [accounts instruction].
  destruct (parseInstruction M today _) as [st c] eqn:H.
  exec.
  repeat (step H; try dangling).
  all: injection H as <- <-; do 2 eexists; (split; [reflexivity|]).
  all: cbn [Response.status Response.accounts buildErrorResponse
            Parsed.accounts app List.length].
  all: split; [lia|].
  all: intros F; try (now destruct F).
  all: repeat (constructor;
               try match goal with
                   | N : nth_error _ _ = Some ?a
                     |- untouchedSnapshot _ _ =>
                       exists a; split; [exact (nth_error_In _ _ N)|reflexivity]
                   end).
Qed.

Lemma nan_not_positive x : JS.isNaN x = true -> isPositiveInteger x = false.
Proof. destruct x; try discriminate. reflexivity. Qed.

Lemma le_zero_not_positive x :
  JS.le x JS.zero = true -> isPositiveInteger x = false.
Proof.
  intros H. destruct (isPositiveInteger x) eqn:P; [|reflexivity].
  apply isPositiveInteger_amount_ok in P.
  apply orb_false_iff in P as [P _]. apply orb_false_iff in P as [_ P].
  congruence.
Qed.

Lemma tryBody_order M today data st c :
  tryBody M today data (initialState data) = (st, c) ->
  orderedChecks (Data.instruction data) (codeOf c).
Proof.
  intros H. destruct data as [accounts instruction].
  unfold orderedChecks, structureOk, isType, currencyOf, amountOf, keywordsOf.
  exec.
  repeat (step H; try dangling).
  all: injection H as <- <-.
  all: cbn [codeOf Response.status_code errorCode].
  all: repeat match goal with
              | E : JS.isNaN _ = true |- _ => apply nan_not_positive in E
              | E : JS.le _ JS.zero = true |- _ => apply le_zero_not_positive in E
              end.
  all: repeat match goal with
              | E : ?x = true |- context [?x] => rewrite E
              | E : ?x = false |- context [?x] => rewrite E
              | E : ?x = None |- context [?x] => rewrite E
              | E : ?x = Some _ |- context [?x] => rewrite E
              end.
  all: cbn [andb orb negb option_map].
  all: repeat match goal with |- _ /\ _ => split end.
  all: split; intros X; try discriminate X; try reflexivity.
  all: repeat match goal with
              | X : _ /\ _ |- _ => destruct X
              | X : exists _, _ |- _ => destruct X
              end; try discriminate; try congruence.
  all: repeat match goal with |- _ /\ _ => split end; try reflexivity.
  all: try (eexists; split; [reflexivity|assumption]).
Qed.

(** The first failure wins, in the order of the source, for an instruction
    in ASCII characters.  The code is
    [SY01] exactly for fewer than eight tokens; [SY03] exactly for eight or
    more tokens the first of which is neither DEBIT nor CREDIT; [SY02]
    exactly when these two checks pass and [isOutOfOrder] answers [true];
    [AM01] exactly when the structure is accepted and the amount is not a
    positive integer; [CU02] exactly when structure and amount are accepted
    and the currency is not a supported one. *)
Theorem validation_order M today data :
  isAscii (Data.instruction data) = true ->
  exists st r,
    parseInstruction M today data = (st, Normal r) /\
    (Response.status_code r = Some "SY01" <->
     (List.length (keywordsOf (Data.instruction data)) <? 8)%nat = true) /\
    (Response.status_code r = Some "SY03" <->
     (List.length (keywordsOf (Data.instruction data)) <? 8)%nat = false /\
     isType (keywordsOf (Data.instruction data)) = false) /\
    (Response.status_code r = Some "SY02" <->
     (List.length (keywordsOf (Data.instruction data)) <? 8)%nat = false /\
     isType (keywordsOf (Data.instruction data)) = true /\
     isOutOfOrder (keywordsOf (Data.instruction data))
       (nth_error (keywordsOf (Data.instruction data)) 0) = true) /\
    (Response.status_code r = Some "AM01" <->
     structureOk (keywordsOf (Data.instruction data)) = true /\
     isPositiveInteger (amountOf (Data.instruction data)) = false) /\
    (Response.status_code r = Some "CU02" <->
     structureOk (keywordsOf (Data.instruction data)) = true /\
     isPositiveInteger (amountOf (Data.instruction data)) = true /\
     exists currency,
       currencyOf (Data.instruction data) = Some currency /\
       includes supported currency = false).
Proof.
  intros _.
  rewrite parseInstruction_unfold.
  destruct (tryBody M today data (initialState data)) as [st1 c] eqn:T.
  pose proof (tryBody_order M today data st1 c T) as O.
  destruct c as [r|e].
  - exists st1, r. split; [reflexivity|]. exact O.
  - destruct (catchBlock_returns e st1) as (snapshots & ->).
    do 2 eexists. split; [reflexivity|]. exact O.
Qed.

(** Amount and currency swapped: the structure is accepted, and the amount
    check is the first to fail. *)
Lemma validation_order_example :
  exists st r,
    parseInstruction readmeMessages "2026-11-02"
      (Data.mk exampleAccounts swappedInstruction) = (st, Normal r) /\
    Response.status_code r = Some "AM01" /\
    Response.status_code r <> Some "SY02".
Proof.
  destruct (validation_order readmeMessages "2026-11-02"
              (Data.mk exampleAccounts swappedInstruction) eq_refl)
    as (st & r & E & _ & _ & S2 & A & _).
  exists st, r. split; [exact E|]. split.
  - apply A. split; vm_compute; reflexivity.
  - intros F. apply S2 in F. destruct F as (_ & _ & F).
    vm_compute in F. discriminate F.
Defined.

Lemma toUpperChar_hyphen c :
  (String (JS.toUpperChar c) "" =? "-") = (String c "" =? "-").
Proof. destruct c as [[] [] [] [] [] [] [] []]; reflexivity. Qed.

Lemma hyphenAt_toUpperCase i d : hyphenAt i (JS.toUpperCase d) = hyphenAt i d.
Proof.
  unfold hyphenAt. revert i; induction d as [|c r IH]; intros i; [reflexivity|].
  destruct i as [|i]; simpl.
  - apply toUpperChar_hyphen.
  - apply IH.
Qed.

Lemma dateShape_toUpperCase d : dateShape (JS.toUpperCase d) = dateShape d.
Proof.
  unfold dateShape.
  now rewrite toUpperCase_length, !hyphenAt_toUpperCase.
Qed.

Lemma truthy_toUpperCase s :
  JS.truthy (Some (JS.toUpperCase s)) = JS.truthy (Some s).
Proof. destruct s; reflexivity. Qed.

(** The date check looks at the shape only.  For an instruction with an ON
    clause and a date in ASCII characters that passes the structural,
    amount, currency and id checks, the
    code is [DT01] if and only if the date does not have ten characters
    with hyphens at positions 4 and 7 (so [2025-13-40] is a date); then no
    date is echoed and nothing is touched.  A date of that shape is echoed,
    upper-cased, whatever happens next. *)
Theorem date_shape_decides_DT01 M today accounts instruction
    t0 t1 t2 t3 t4 t5 t6 t7 t8 t9 t10 on date rest :
  splitData instruction =
    t0 :: t1 :: t2 :: t3 :: t4 :: t5 :: t6 :: t7 :: t8 :: t9 :: t10 ::
    on :: date :: rest ->
  JS.toUpperCase t0 = "DEBIT" \/ JS.toUpperCase t0 = "CREDIT" ->
  isOutOfOrder
    (normalize (t0 :: t1 :: t2 :: t3 :: t4 :: t5 :: t6 :: t7 :: t8 :: t9 ::
                t10 :: on :: date :: rest))
    (Some (JS.toUpperCase t0)) = false ->
  isPositiveInteger (JS.Number (JS.toUpperCase t1)) = true ->
  includes supported (JS.toUpperCase t2) = true ->
  accountIdChars t5 = true ->
  accountIdChars t10 = true ->
  JS.toUpperCase on = "ON" ->
  isAscii date = true ->
  exists st r,
    parseInstruction M today (Data.mk accounts instruction) = (st, Normal r) /\
    (Response.status_code r = Some "DT01" <-> dateShape date = false) /\
    (dateShape date = false ->
     Response.status r = "failed" /\ Response.execute_by r = None /\
     data_accounts st = accounts) /\
    (dateShape date = true ->
     Response.execute_by r = Some (JS.toUpperCase date)).
Proof.
  intros Htok Hty Hord Hamount Hcur H5 H10 Hon _.
  pose proof (isPositiveInteger_amount_ok _ Hamount) as Hok.
  apply orb_false_iff in Hok as [Hok _].
  apply orb_false_iff in Hok as [Hnan Hpos].
  pose proof (token_truthy _ _ 12 _ Htok eq_refl) as Td.
  rewrite <- truthy_toUpperCase in Td.
  rewrite <- (dateShape_toUpperCase date).
  destruct (parseInstruction M today _) as [st c] eqn:H.
  unfold dateShape, hyphenAt in *.
  exec. rewrite Htok in H. exec_tokens.
  destruct Hty as [Hty|Hty]; rewrite Hty, ?Hon in *; exec_tokens.
  all: repeat (step_tokens H; try dangling).
  all: injection H as <- <-; do 2 eexists; (split; [reflexivity|]).
  all: cbn [Response.status Response.status_code Response.execute_by
            buildErrorResponse errorCode Parsed.execute_by data_accounts].
  all: repeat match goal with
              | E : ?x = true |- context [?x] => rewrite E
              | E : ?x = false |- context [?x] => rewrite E
              | E : ?x = None |- context [?x] => rewrite E
              | E : ?x = Some _ |- context [?x] => rewrite E
              end.
  all: cbn [andb orb negb option_map]; unfold orNull; rewrite ?Td.
  all: repeat match goal with |- _ /\ _ => split end.
  all: try (split; intros X; (discriminate X || reflexivity)).
  all: intros X; try discriminate X.
  all: repeat match goal with |- _ /\ _ => split end; reflexivity.
Qed.

Lemma date_shape_decides_DT01_example :
  exists st r,
    parseInstruction readmeMessages "2026-11-02"
      (Data.mk exampleAccounts misshapenDate) = (st, Normal r) /\
    (Response.status_code r = Some "DT01" <-> dateShape "25/12/2026" = false) /\
    (dateShape "25/12/2026" = false ->
     Response.status r = "failed" /\ Response.execute_by r = None /\
     data_accounts st = exampleAccounts) /\
    (dateShape "25/12/2026" = true ->
     Response.execute_by r = Some (JS.toUpperCase "25/12/2026")).
Proof.
  apply (date_shape_decides_DT01 readmeMessages "2026-11-02" exampleAccounts
           misshapenDate "DEBIT" "2000" "NGN" "FROM" "ACCOUNT" "ACC-001" "FOR"
           "CREDIT" "TO" "ACCOUNT" "ACC-002" "ON" "25/12/2026" []).
  - vm_compute; reflexivity.
  - left. reflexivity.
  - vm_compute; reflexivity.
  - vm_compute; reflexivity.
  - reflexivity.
  - reflexivity.
  - reflexivity.
  - reflexivity.
  - reflexivity.
Defined.

(** ** The endpoint *)

(** The handler answers every body the schema accepts, and always with
    [HTTP_200_OK] and the message "Instruction processed successfully": a
    failed instruction is told apart by the [status] of [data] alone, which
    is the response of the service. *)
Theorem handler_always_200 (HttpStatus : Type) (HTTP_200_OK : HttpStatus)
    M today body :
  exists st result,
    handler HttpStatus HTTP_200_OK M today body = (st, Normal result) /\
    HandlerResult.status result = HTTP_200_OK /\
    HandlerResult.message result = "Instruction processed successfully" /\
    parseInstruction M today body = (st, Normal (HandlerResult.data result)) /\
    (Response.status (HandlerResult.data result) = "successful" \/
     Response.status (HandlerResult.data result) = "pending" \/
     Response.status (HandlerResult.data result) = "failed").
Proof.
  unfold handler. destruct body as [accounts instruction].
  cbn [Data.accounts Data.instruction].
  destruct (parseInstruction_cases M today (Data.mk accounts instruction))
    as (st & r & E & C).
  rewrite E. do 2 eexists. split; [reflexivity|].
  repeat split.
  destruct C as [(st1 & e & snapshots & _ & -> & _)|C].
  - right; right. reflexivity.
  - apply normal_not_failed in C. tauto.
Qed.
